(** * Billing system: invoice lifecycle, product catalog and invoice history

    A shallow embedding of the state-changing code of the billing
    application (the [App] component with its handlers, and the
    [BillHistory] component), followed by the properties of that code.

    Conventions of the embedding.
    - A React component is its state record; an event handler or an effect
      body is a computation in the monad [M] below, which threads the
      component state, records what the handler does to the outside world
      (alerts, console output, Firestore requests) and propagates thrown
      exceptions, so that [try]/[catch]/[finally] read as in the source.
    - An awaited Firestore call settles as the [World] says: fulfilled with
      a value, or rejected with an error.
    - [price], [quantity] and the invoice totals are JavaScript numbers,
      that is IEEE 754 binary64 values: primitive floats.  Product codes
      ([id], the "numeric product code" of types.ts) are JavaScript
      numbers that hold integers: [Z], with the one sum taken on them,
      [maxId + 1], rounded as binary64 rounds it.
    - Strings are byte strings; [toLowerCase] is the ASCII part of the
      JavaScript method. *)

From Stdlib Require Import ZArith List Bool Lia Sorted.
From Stdlib Require Import Strings.String Strings.Ascii.
From Stdlib Require Import Numbers.DecimalString Numbers.DecimalZ.
From Stdlib Require Import Floats.PrimFloat Floats.SpecFloat Floats.FloatOps.
From Stdlib Require Import Floats.FloatAxioms.
Import ListNotations.

Local Open Scope string_scope.
Local Open Scope list_scope.
Local Open Scope Z_scope.

(* ------------------------------------------------------------------ *)
(** ** JavaScript values used by the source *)

Module Js.

(** A promise that has settled. *)
Inductive Settled (A : Type) : Type :=
| Fulfilled (a : A)
| Rejected (err : string).
Arguments Fulfilled {A} a.
Arguments Rejected {A} err.

(** Truthiness of an optional string ([undefined] and the empty string are falsy). *)
Definition truthy (s : option string) : bool :=
  match s with
  | Some EmptyString => false
  | Some _ => true
  | None => false
  end.

(** The value of a condition [if (s)] on an optional string, kept for the
    branch it guards: the string itself when it is truthy. *)
Definition if_truthy (s : option string) : option string :=
  if truthy s then s else None.

(** Optional chaining [x?.field] on an optional field. *)
Definition opt_chain {A B} (x : option A) (field : A -> option B) : option B :=
  match x with
  | Some a => field a
  | None => None
  end.

(** [Math.max] on integers. *)
Definition Math_max (a b : Z) : Z := Z.max a b.

(** The multiple of [2^e] nearest to [n], a tie going to the even
    multiple. *)
Definition round_to_even (n e : Z) : Z :=
  let q := n / 2 ^ e in
  let r := n mod 2 ^ e in
  let half := 2 ^ (e - 1) in
  if r <? half then q * 2 ^ e
  else if half <? r then (q + 1) * 2 ^ e
  else if Z.even q then q * 2 ^ e
  else (q + 1) * 2 ^ e.

(** The binary64 value nearest to the integer [n]: 53 significant bits
    (the integers met here are far below the largest binary64 value). *)
Definition nearest_binary64 (n : Z) : Z :=
  let e := Z.log2 (Z.abs n) - 52 in
  if e <=? 0 then n else round_to_even n e.

(** [n + 1] on a number that holds the integer [n >= 0].  The sum is
    exact up to 2^53.  From there on the numbers are at least 2 apart and
    the sum is rounded to the nearest of them: between 2^53 and 2^54
    [n + 1] lies half way between [n] and [n + 2] and goes to the one
    with the even significand; from 2^54 on it goes back to [n].
    ([Number_succ_is_rounded_sum] below relates this to
    [nearest_binary64].) *)
Definition Number_succ (n : Z) : Z :=
  if n <? 2 ^ 53 then n + 1
  else if ((n <? 2 ^ 54) && Z.odd (n / 2))%bool then n + 2
  else n.

(** Template rendering of an integer, as in [`${Date.now()}`]. *)
Definition Z_to_string (z : Z) : string :=
  NilEmpty.string_of_int (Z.to_int z).

Definition is_upper (c : ascii) : bool :=
  (("A" <=? c)%char && (c <=? "Z")%char)%bool.

Definition lower_ascii (c : ascii) : ascii :=
  if is_upper c then ascii_of_nat (nat_of_ascii c + 32) else c.

(** [String.prototype.toLowerCase], ASCII letters. *)
Fixpoint toLowerCase (s : string) : string :=
  match s with
  | EmptyString => EmptyString
  | String c s' => String (lower_ascii c) (toLowerCase s')
  end.

(** [s.startsWith(sub)]. *)
Fixpoint startsWith (s sub : string) : bool :=
  match sub, s with
  | EmptyString, _ => true
  | String _ _, EmptyString => false
  | String b sub', String a s' => (Ascii.eqb a b && startsWith s' sub')%bool
  end.

(** [s.includes(sub)]: [sub] occurs in [s] as a contiguous substring. *)
Fixpoint includes (s sub : string) : bool :=
  match s with
  | EmptyString => startsWith s sub
  | String _ s' => (startsWith s sub || includes s' sub)%bool
  end.

End Js.
Import Js.

(* ------------------------------------------------------------------ *)
(** ** Data model (types.ts) *)

(** A [Date]: milliseconds since the epoch. *)
Definition Date := Z.

(** A Firestore [Timestamp]. *)
Record Timestamp : Type := mkTimestamp {
  seconds : Z;
  nanoseconds : Z
}.

(** [Timestamp.toDate()]: the instant, at millisecond precision. *)
Definition toDate (t : Timestamp) : Date :=
  seconds t * 1000 + nanoseconds t / 1000000.

Record Product : Type := mkProduct {
  p_id : Z;
  p_name : string;
  p_price : float;
  p_docId : option string
}.

Record BillItem : Type := mkBillItem {
  product : Product;
  quantity : float;
  lineId : option string
}.

Record InvoiceData : Type := mkInvoiceData {
  i_id : option string;
  invoiceNumber : string;
  date : Date;
  customerName : string;
  customerPhone : string;
  items : list BillItem;
  subtotal : float;
  gstAmount : float;
  grandTotal : float;
  userId : string;
  createdAt : option Timestamp
}.

(** [{ ...invoiceData, id: docId }] *)
Definition with_id (inv : InvoiceData) (docId : string) : InvoiceData :=
  mkInvoiceData (Some docId) (invoiceNumber inv) (date inv)
    (customerName inv) (customerPhone inv) (items inv)
    (subtotal inv) (gstAmount inv) (grandTotal inv) (userId inv)
    (createdAt inv).

Record User : Type := mkUser { uid : string }.

(* ------------------------------------------------------------------ *)
(** ** The Firestore interface, as the source uses it *)

Inductive Direction : Type := Asc | Desc.

(** [query(collection(db, c), where(f, '==', v)?, orderBy(f', dir))] *)
Record Query : Type := mkQuery {
  q_collection : string;
  q_where : option (string * string);
  q_orderBy : string * Direction
}.

(** The fields handed to [addDoc]. *)
Inductive Payload : Type :=
| ProductFields (id : Z) (name : string) (price : float)
    (* { id, name, price } *)
| InvoiceFields (inv : InvoiceData).
    (* { ...invoiceData, createdAt: serverTimestamp() } *)

Inductive Request : Type :=
| AddDoc (coll : string) (fields : Payload)
| DeleteDoc (coll : string) (docId : string)
| GetDocs (q : Query).

(** A document of a query snapshot: [d.id] and [d.data()]. *)
Record QueryDocumentSnapshot (D : Type) : Type := mkDoc {
  doc_id : string;
  doc_data : D
}.
Arguments mkDoc {D} _ _.
Arguments doc_id {D} _.
Arguments doc_data {D} _.

(** Stored product fields. *)
Record ProductData : Type := mkProductData {
  d_id : Z;
  d_name : string;
  d_price : float
}.

(** Everything outside the component that a handler consults: how each
    Firestore request settles, and the clock. *)
Record World : Type := mkWorld {
  addDoc_settles : string -> Payload -> Settled string;
  deleteDoc_settles : string -> string -> Settled unit;
  getDocs_products : Query -> Settled (list (QueryDocumentSnapshot ProductData));
  getDocs_invoices : Query -> Settled (list (QueryDocumentSnapshot InvoiceData));
  Date_now : Z;
  new_Date : Date
}.

(** What a handler does to the outside world, in order.  A remote request
    is recorded with whether it succeeded. *)
Inductive Event : Type :=
| Alert (msg : string)
| ConsoleError (msg : string)
| Remote (rq : Request) (ok : bool).

Definition is_remote (e : Event) : bool :=
  match e with Remote _ _ => true | _ => false end.

(** The Firestore requests of a trace. *)
Definition remote_calls (t : list Event) : list Event := filter is_remote t.

(* ------------------------------------------------------------------ *)
(** ** The handler monad *)

Inductive Completion (A : Type) : Type :=
| Normal (a : A)
| Thrown (err : string).
Arguments Normal {A} a.
Arguments Thrown {A} err.

Record Result (S A : Type) : Type := mkResult {
  outcome : Completion A;
  final : S;
  trace : list Event
}.
Arguments mkResult {S A} _ _ _.
Arguments outcome {S A} _.
Arguments final {S A} _.
Arguments trace {S A} _.

Definition M (S A : Type) : Type := World -> S -> Result S A.

Section HandlerMonad.
Context {S : Type}.

Definition ret {A} (a : A) : M S A :=
  fun _ s => mkResult (Normal a) s [].

Definition bind {A B} (m : M S A) (k : A -> M S B) : M S B :=
  fun w s =>
    let r := m w s in
    match outcome r with
    | Normal a =>
        let r' := k a w (final r) in
        mkResult (outcome r') (final r') (trace r ++ trace r')
    | Thrown e => mkResult (Thrown e) (final r) (trace r)
    end.

(** [try { m } catch (err) { h err }] *)
Definition try_catch {A} (m : M S A) (h : string -> M S A) : M S A :=
  fun w s =>
    let r := m w s in
    match outcome r with
    | Normal _ => r
    | Thrown e =>
        let r' := h e w (final r) in
        mkResult (outcome r') (final r') (trace r ++ trace r')
    end.

(** [try { m } finally { f }] *)
Definition try_finally {A} (m : M S A) (f : M S unit) : M S A :=
  fun w s =>
    let r := m w s in
    let r' := f w (final r) in
    match outcome r' with
    | Normal _ => mkResult (outcome r) (final r') (trace r ++ trace r')
    | Thrown e => mkResult (Thrown e) (final r') (trace r ++ trace r')
    end.

Definition throw {A} (e : string) : M S A :=
  fun _ s => mkResult (Thrown e) s [].

(** The value a closure captured from the current render. *)
Definition read {A} (proj : S -> A) : M S A :=
  fun _ s => mkResult (Normal (proj s)) s [].

(** A state setter called with an updater function. *)
Definition update (f : S -> S) : M S unit :=
  fun _ s => mkResult (Normal tt) (f s) [].

Definition ask {A} (proj : World -> A) : M S A :=
  fun w s => mkResult (Normal (proj w)) s [].

Definition emit (e : Event) : M S unit :=
  fun _ s => mkResult (Normal tt) s [e].

Definition alert (msg : string) : M S unit := emit (Alert msg).
Definition console_error (msg : string) : M S unit := emit (ConsoleError msg).

(** [await] of a Firestore request: the request is recorded, and the
    promise either yields its value or throws. *)
Definition await {A} (rq : Request) (settles : World -> Settled A) : M S A :=
  fun w s =>
    match settles w with
    | Fulfilled a => mkResult (Normal a) s [Remote rq true]
    | Rejected e => mkResult (Thrown e) s [Remote rq false]
    end.

Definition addDoc (coll : string) (fields : Payload) : M S string :=
  await (AddDoc coll fields) (fun w => addDoc_settles w coll fields).

Definition deleteDoc (coll docId : string) : M S unit :=
  await (DeleteDoc coll docId) (fun w => deleteDoc_settles w coll docId).

Definition getDocs_p (q : Query) :=
  await (GetDocs q) (fun w => getDocs_products w q).

Definition getDocs_i (q : Query) :=
  await (GetDocs q) (fun w => getDocs_invoices w q).

(** [xs.map(f)] where the callback may throw. *)
Fixpoint map_throwing {A B} (f : A -> M S B) (xs : list A) : M S (list B) :=
  match xs with
  | [] => ret []
  | x :: xs' =>
      bind (f x) (fun y => bind (map_throwing f xs') (fun ys => ret (y :: ys)))
  end.

End HandlerMonad.

Declare Scope handler_scope.
Delimit Scope handler_scope with handler.
Notation "x <- m ;; k" := (bind m (fun x => k))
  (at level 100, m at next level, right associativity) : handler_scope.
Notation "m ;; k" := (bind m (fun _ => k))
  (at level 100, right associativity) : handler_scope.
Notation "'try' m 'catch' h" := (try_catch m h)
  (at level 100, m at next level, h at next level) : handler_scope.
Notation "x ?. f" := (opt_chain x f) (at level 20, f at level 9) : handler_scope.
Local Open Scope handler_scope.

(** Running a handler in a world from a state. *)
Definition run {S A} (m : M S A) (w : World) (s : S) : Result S A := m w s.

(* ------------------------------------------------------------------ *)
(** ** The App component *)

Inductive View : Type := ViewForm | ViewHistory | ViewProducts.

Record AppState : Type := mkAppState {
  user : option User;
  loading : bool;
  view : View;
  currentInvoice : option InvoiceData;
  products : list Product
}.

Definition setUser (u : option User) : M AppState unit :=
  update (fun s => mkAppState u (loading s) (view s) (currentInvoice s) (products s)).
Definition setLoading (b : bool) : M AppState unit :=
  update (fun s => mkAppState (user s) b (view s) (currentInvoice s) (products s)).
Definition setView (v : View) : M AppState unit :=
  update (fun s => mkAppState (user s) (loading s) v (currentInvoice s) (products s)).
Definition setCurrentInvoice (i : option InvoiceData) : M AppState unit :=
  update (fun s => mkAppState (user s) (loading s) (view s) i (products s)).
Definition setProducts (f : list Product -> list Product) : M AppState unit :=
  update (fun s => mkAppState (user s) (loading s) (view s) (currentInvoice s)
                     (f (products s))).

(** [products.find(pred)] *)
Definition find_product (pred : Product -> bool) (ps : list Product) : option Product :=
  List.find pred ps.

Section App.

(** The constants module is outside the verified sources: the built-in
    catalog and the tax rate are parameters of the component. *)
Variable PRODUCTS : list Product.
Variable GST_RATE : float.

(** State of the first render: [useState(null)], [useState(true)],
    [useState('form')], [useState(null)], [useState(PRODUCTS)]. *)
Definition initialState : AppState :=
  mkAppState None true ViewForm None PRODUCTS.

Definition products_query : Query :=
  mkQuery "products" None ("id", Asc).

Definition product_of_doc (d : QueryDocumentSnapshot ProductData) : Product :=
  mkProduct (d_id (doc_data d)) (d_name (doc_data d)) (d_price (doc_data d))
    (Some (doc_id d)).

(** The mount effect: load products from Firestore. *)
Definition loadProducts : M AppState unit :=
  try (
    snap <- getDocs_p products_query ;;
    match snap with
    | [] => ret tt
    | _ :: _ =>
        let loaded := map product_of_doc snap in
        setProducts (fun _ => loaded)
    end
  ) catch (fun err =>
    console_error "Failed to load products, using defaults." ;;
    setProducts (fun _ => PRODUCTS)).

Definition handleAddProduct (name : string) (price : float) : M AppState unit :=
  products <- read products ;;
  try (
    let maxId := fold_left (fun m p => Math_max m (p_id p)) products 0 in
    let nextId := Number_succ maxId in
    docRef <- addDoc "products" (ProductFields nextId name price) ;;
    let newProd := mkProduct nextId name price (Some docRef) in
    setProducts (fun prev => prev ++ [newProd])
  ) catch (fun err =>
    console_error "Failed to add product" ;;
    alert "Failed to add product. Please try again.").

(** The handler returns from inside [catch]; [true] stands for that early
    return, [false] for falling through to the statement after the
    [try]. *)
Definition handleDeleteProduct (id : Z) (docId : option string) : M AppState unit :=
  products <- read products ;;
  returned <- (try (
      match if_truthy docId with
      | Some docId => deleteDoc "products" docId
      | None =>
          let toDelete :=
            find_product (fun p => (p_id p =? id) && truthy (p_docId p))%bool products in
          match if_truthy (toDelete ?. p_docId) with
          | Some docId' => deleteDoc "products" docId'
          | None => ret tt
          end
      end ;;
      ret false
    ) catch (fun err =>
      console_error "Failed to delete product from Firestore" ;;
      alert "Failed to delete product from database." ;;
      ret true)) ;;
  if (returned : bool) then ret tt
  else setProducts (fun prev => filter (fun p => negb (p_id p =? id)) prev).

(** The [onAuthStateChanged] listener. *)
Definition onAuthStateChanged (u : option User) : M AppState unit :=
  setUser u ;;
  setLoading false ;;
  (* Reset state on auth change *)
  setView ViewForm ;;
  setCurrentInvoice None.

(** Generate invoice preview without saving to database. *)
Definition handleGenerateBill (customerName customerPhone : string)
    (billItems : list BillItem) : M AppState unit :=
  user <- read user ;;
  match user with
  | None => alert "You must be logged in to generate a bill."
  | Some user =>
      let subtotal :=
        fold_left
          (fun acc item => (acc + p_price (product item) * quantity item)%float)
          billItems 0%float in
      let gstAmount := (subtotal * GST_RATE)%float in
      let grandTotal := (subtotal + gstAmount)%float in
      now <- ask Date_now ;;
      date <- ask new_Date ;;
      let invoiceBaseData :=
        mkInvoiceData None ("BSMOM-" ++ Z_to_string now) date
          customerName customerPhone billItems
          subtotal gstAmount grandTotal (uid user) None in
      setCurrentInvoice (Some invoiceBaseData)
  end.

(** Save invoice to Firestore when user prints.  The result is [true],
    [false], or nothing ([undefined]) when no user is logged in. *)
Definition handleSaveInvoice (invoiceData : InvoiceData) : M AppState (option bool) :=
  user <- read user ;;
  match user with
  | None =>
      alert "You must be logged in to save a bill." ;;
      ret None
  | Some _ =>
      try (
        docRef <- addDoc "invoices" (InvoiceFields invoiceData) ;;
        setCurrentInvoice (Some (with_id invoiceData docRef)) ;;
        ret (Some true)
      ) catch (fun error =>
        console_error "Error adding document: " ;;
        alert "Failed to save the invoice. Please try again." ;;
        ret (Some false))
  end.

Definition handleViewInvoice (invoice : InvoiceData) : M AppState unit :=
  setCurrentInvoice (Some invoice).

Definition handleBack : M AppState unit :=
  setCurrentInvoice None.

Definition switchView (newView : View) : M AppState unit :=
  setView newView ;;
  setCurrentInvoice None.

End App.

(* ------------------------------------------------------------------ *)
(** ** The BillHistory component *)

Record HistoryState : Type := mkHistoryState {
  invoices : list InvoiceData;
  h_loading : bool;
  error : option string;
  searchTerm : string
}.

(** [useState([])], [useState(true)], [useState(null)], [useState('')]. *)
Definition initialHistory : HistoryState := mkHistoryState [] true None EmptyString.

Definition setInvoices (l : list InvoiceData) : M HistoryState unit :=
  update (fun s => mkHistoryState l (h_loading s) (error s) (searchTerm s)).
Definition setHistoryLoading (b : bool) : M HistoryState unit :=
  update (fun s => mkHistoryState (invoices s) b (error s) (searchTerm s)).
Definition setError (e : option string) : M HistoryState unit :=
  update (fun s => mkHistoryState (invoices s) (h_loading s) e (searchTerm s)).
Definition setSearchTerm (t : string) : M HistoryState unit :=
  update (fun s => mkHistoryState (invoices s) (h_loading s) (error s) t).

(** What the component renders. *)
Inductive Rendered : Type :=
| LoadingHistory
| ErrorBox (msg : string)
| HistoryTable (term : string) (rows : list InvoiceData).

Definition invoices_query (user : User) : Query :=
  mkQuery "invoices" (Some ("userId", uid user)) ("createdAt", Desc).

(** The callback of [querySnapshot.docs.map]:
    [{ id: doc.id, ...data, date: data.createdAt.toDate() }].  A field [id]
    stored in the document overrides [doc.id]; reading [toDate] of a
    missing [createdAt] throws. *)
Definition invoice_of_doc (doc : QueryDocumentSnapshot InvoiceData)
    : M HistoryState InvoiceData :=
  let data := doc_data doc in
  match createdAt data with
  | None => throw "TypeError: Cannot read properties of undefined (reading 'toDate')"
  | Some ts =>
      ret (mkInvoiceData
             (match i_id data with Some i => Some i | None => Some (doc_id doc) end)
             (invoiceNumber data) (toDate ts)
             (customerName data) (customerPhone data) (items data)
             (subtotal data) (gstAmount data) (grandTotal data) (userId data)
             (createdAt data))
  end.

Definition fetchInvoices (user : User) : M HistoryState unit :=
  try_finally
    (try (
       let q := invoices_query user in
       querySnapshot <- getDocs_i q ;;
       invoicesData <- map_throwing invoice_of_doc querySnapshot ;;
       setInvoices invoicesData
     ) catch (fun err =>
       console_error err ;;
       setError (Some "Failed to fetch invoice history.")))
    (setHistoryLoading false).

(** The [onChange] handler of the search input. *)
Definition onSearchChange (value : string) : M HistoryState unit :=
  setSearchTerm value.

Section HistoryView.

(** [date.toLocaleDateString('en-IN')] is computed by the host (its time
    zone and locale data): a parameter of the component. *)
Variable toLocaleDateString : Date -> string.

(** Filter invoices based on search term. *)
Definition filteredInvoices (invoices : list InvoiceData) (searchTerm : string)
    : list InvoiceData :=
  filter (fun invoice =>
            includes (toLowerCase (invoiceNumber invoice)) (toLowerCase searchTerm)
            || includes (toLowerCase (customerName invoice)) (toLowerCase searchTerm)
            || includes (toLocaleDateString (date invoice)) searchTerm)%bool
         invoices.

Definition render (st : HistoryState) : Rendered :=
  if h_loading st then LoadingHistory
  else match if_truthy (error st) with
       | Some e => ErrorBox e
       | None => HistoryTable (searchTerm st) (filteredInvoices (invoices st) (searchTerm st))
       end.

End HistoryView.

(** One host: the en-IN short date [d/m/yyyy] of an instant, in UTC. *)
Definition civil_from_days (days : Z) : Z * Z * Z :=
  let z := days + 719468 in
  let era := z / 146097 in
  let doe := z - era * 146097 in
  let yoe := (doe - doe / 1460 + doe / 36524 - doe / 146096) / 365 in
  let doy := doe - (365 * yoe + yoe / 4 - yoe / 100) in
  let mp := (5 * doy + 2) / 153 in
  let d := doy - (153 * mp + 2) / 5 + 1 in
  let m := if mp <? 10 then mp + 3 else mp - 9 in
  let y := yoe + era * 400 + (if m <=? 2 then 1 else 0) in
  (d, m, y).

Definition toLocaleDateString_enIN_UTC (t : Date) : string :=
  let '(d, m, y) := civil_from_days (t / 86400000) in
  Z_to_string d ++ "/" ++ Z_to_string m ++ "/" ++ Z_to_string y.

(* ------------------------------------------------------------------ *)
(** ** Vocabulary of the properties, and sample data *)

(** The lifecycle state of the spec, read off the component state: no
    current invoice is [NoDraft]. *)
Definition NoDraft (s : AppState) : Prop := currentInvoice s = None.

(** The amount of one line, and the sum of a sequence of amounts taken in
    entry order. *)
Definition line_total (item : BillItem) : float :=
  (p_price (product item) * quantity item)%float.

Definition sum_in_order (xs : list float) : float :=
  fold_left PrimFloat.add xs 0%float.

(** 0.05 as a JavaScript number (the nearest binary64 value). *)
Definition rate_5_percent : float := 0x1.999999999999ap-5%float.

Definition groundnut_oil : Product :=
  mkProduct 1 "Groundnut Oil 1L" 250%float None.

Definition logged_in (u : string) (ps : list Product) : AppState :=
  mkAppState (Some (mkUser u)) false ViewForm None ps.

Definition logged_out (ps : list Product) : AppState :=
  mkAppState None false ViewForm None ps.

(** A world in which every Firestore request is rejected. *)
Definition offline : World :=
  mkWorld (fun _ _ => Rejected "unavailable") (fun _ _ => Rejected "unavailable")
          (fun _ => Rejected "unavailable") (fun _ => Rejected "unavailable")
          1700000000000 1700000000000.

(** A world in which every write succeeds and the collections are empty. *)
Definition online : World :=
  mkWorld (fun _ _ => Fulfilled "doc-1") (fun _ _ => Fulfilled tt)
          (fun _ => Fulfilled []) (fun _ => Fulfilled [])
          1700000000000 1700000000000.

Definition sample_draft : InvoiceData :=
  mkInvoiceData None "BSMOM-1700000000000" 1700000000000 "Asha" "9876543210"
    [mkBillItem groundnut_oil 3%float None]
    750%float 37.5%float 787.5%float "op-1" None.

Definition with_draft (d : InvoiceData) (s : AppState) : AppState :=
  mkAppState (user s) (loading s) (view s) (Some d) (products s).

(** The greatest of 0 and the product codes of a catalog. *)
Definition max_id_or_0 (ps : list Product) : Z :=
  fold_right Z.max 0 (map p_id ps).

(** The rule for the new code as the specification words it: when the
    remote create has succeeded, the product is appended under
    1 + max(0, codes). *)
Definition add_takes_next_integer
    (w : World) (st : AppState) (name : string) (price : float) : Prop :=
  let r := run (handleAddProduct name price) w st in
  (exists fields, In (Remote (AddDoc "products" fields) true) (trace r)) ->
  exists docRef,
    products (final r)
    = products st
      ++ [mkProduct (1 + max_id_or_0 (products st)) name price (Some docRef)].

(** A catalog whose one product has the code 2^53. *)
Definition catalog_at_2_53 : list Product :=
  [ mkProduct 9007199254740992 "Groundnut Oil 1L" 250%float (Some "d1") ].

(** [saved] is [invoiceData] with the document id attached: the [id] is
    the new one and every other field is as it was. *)
Definition is_saved_copy (invoiceData : InvoiceData) (docId : string)
    (saved : InvoiceData) : Prop :=
  i_id saved = Some docId
  /\ invoiceNumber saved = invoiceNumber invoiceData
  /\ date saved = date invoiceData
  /\ customerName saved = customerName invoiceData
  /\ customerPhone saved = customerPhone invoiceData
  /\ items saved = items invoiceData
  /\ subtotal saved = subtotal invoiceData
  /\ gstAmount saved = gstAmount invoiceData
  /\ grandTotal saved = grandTotal invoiceData
  /\ userId saved = userId invoiceData
  /\ createdAt saved = createdAt invoiceData.

Definition three_products : list Product :=
  [ mkProduct 1 "Groundnut Oil 1L" 250%float None;
    mkProduct 2 "Mustard Oil 1L" 210%float None;
    mkProduct 3 "Coconut Oil 1L" 320%float (Some "abc") ].

(** The document that [handleDeleteProduct] deletes remotely, if any:
    the [docId] argument when it is given, otherwise the [docId] of the
    first catalog entry with the code that has one. *)
Definition resolved_ref (ps : list Product) (id : Z) (docId : option string)
    : option string :=
  match if_truthy docId with
  | Some ref => Some ref
  | None =>
      if_truthy
        (find_product (fun p => (p_id p =? id) && truthy (p_docId p))%bool ps
           ?. p_docId)
  end.

(** The catalog without the entries of a code. *)
Definition without_id (id : Z) (ps : list Product) : list Product :=
  filter (fun p => negb (p_id p =? id)) ps.

(** The deletion rule as the specification words it: a rejected remote delete leaves the
    catalog as it was, and the catalog loses an entry only in a run in
    which a remote delete succeeded. *)
Definition delete_is_remote_first
    (w : World) (st : AppState) (id : Z) (docId : option string) : Prop :=
  let r := run (handleDeleteProduct id docId) w st in
  (forall ref, In (Remote (DeleteDoc "products" ref) false) (trace r) ->
     products (final r) = products st)
  /\ (products (final r) <> products st ->
      exists ref, In (Remote (DeleteDoc "products" ref) true) (trace r)).

Definition stored_products : list (QueryDocumentSnapshot ProductData) :=
  [ mkDoc "d1" (mkProductData 1 "Groundnut Oil 1L" 250%float);
    mkDoc "d2" (mkProductData 2 "Sesame Oil 500ml" 180%float) ].

(** A world whose [products] collection holds [stored_products]. *)
Definition stocked : World :=
  mkWorld (fun _ _ => Fulfilled "doc-1") (fun _ _ => Fulfilled tt)
          (fun _ => Fulfilled stored_products) (fun _ => Fulfilled [])
          1700000000000 1700000000000.

(** Every document of an answer carries its server timestamp. *)
Definition all_stamped (docs : list (QueryDocumentSnapshot InvoiceData)) : bool :=
  forallb (fun d => match createdAt (doc_data d) with Some _ => true | None => false end)
          docs.

(** [inv] is the record [d] as the history shows it: the stored fields,
    dated by the server's creation timestamp of the document. *)
Definition is_invoice_of (d : QueryDocumentSnapshot InvoiceData) (inv : InvoiceData) : Prop :=
  exists ts,
    createdAt (doc_data d) = Some ts
    /\ date inv = toDate ts
    /\ createdAt inv = Some ts
    /\ invoiceNumber inv = invoiceNumber (doc_data d)
    /\ customerName inv = customerName (doc_data d)
    /\ customerPhone inv = customerPhone (doc_data d)
    /\ items inv = items (doc_data d)
    /\ subtotal inv = subtotal (doc_data d)
    /\ gstAmount inv = gstAmount (doc_data d)
    /\ grandTotal inv = grandTotal (doc_data d)
    /\ userId inv = userId (doc_data d)
    /\ i_id inv = Some (match i_id (doc_data d) with
                        | Some stored => stored
                        | None => doc_id d
                        end).

Definition stamped_doc (docId number customer : string) (seconds : Z)
    : QueryDocumentSnapshot InvoiceData :=
  mkDoc docId
    (mkInvoiceData None number (seconds * 1000 - 40) customer "9876543210"
       [mkBillItem groundnut_oil 3%float None]
       750%float 37.5%float 787.5%float "op-1"
       (Some (mkTimestamp seconds 0))).

Definition stored_invoices : list (QueryDocumentSnapshot InvoiceData) :=
  [ stamped_doc "inv-b" "BSMOM-1700000000000" "Ravi" 1700000000;
    stamped_doc "inv-a" "BSMOM-1692023000000" "Asha" 1692023000 ].

(** A world whose [invoices] collection answers with [stored_invoices]. *)
Definition with_history : World :=
  mkWorld (fun _ _ => Fulfilled "doc-1") (fun _ _ => Fulfilled tt)
          (fun _ => Fulfilled []) (fun _ => Fulfilled stored_invoices)
          1700000000000 1700000000000.

(** [hay] contains [term] as a substring, letter case ignored. *)
Definition contains_ci (hay term : string) : bool :=
  includes (toLowerCase hay) (toLowerCase term).

(** The search criterion of the specification: the term occurs, case
    ignored, in the invoice number, the customer name or the formatted
    date. *)
Definition matches_search (fmt : Date -> string) (term : string) (inv : InvoiceData)
    : bool :=
  (contains_ci (invoiceNumber inv) term
   || contains_ci (customerName inv) term
   || contains_ci (fmt (date inv)) term)%bool.

Definition is_numeric (c : ascii) : bool :=
  ((("0" <=? c)%char && (c <=? "9")%char) || (c =? "/")%char)%bool.

Fixpoint all_chars (p : ascii -> bool) (s : string) : bool :=
  match s with
  | EmptyString => true
  | String c s' => (p c && all_chars p s')%bool
  end.

(** A short numeric date such as [14/11/2023]: digits and slashes only. *)
Definition numeric_date (s : string) : bool := all_chars is_numeric s.

(** The specification's example, as worded: a term that occurs in the
    invoice number of exactly one fetched invoice selects exactly that
    invoice. *)
Definition unique_number_selects
    (fmt : Date -> string) (fetched : list InvoiceData) (term : string)
    (inv : InvoiceData) : Prop :=
  (exists before after,
      fetched = before ++ inv :: after
      /\ contains_ci (invoiceNumber inv) term = true
      /\ forall other, In other (before ++ after) ->
                       contains_ci (invoiceNumber other) term = false) ->
  filteredInvoices fmt fetched term = [inv].

Definition invoice_b : InvoiceData :=
  mkInvoiceData (Some "inv-b") "BSMOM-1700000000000" 1700000000000 "Ravi" "9876543210"
    [mkBillItem groundnut_oil 3%float None]
    750%float 37.5%float 787.5%float "op-1" (Some (mkTimestamp 1700000000 0)).

Definition invoice_a : InvoiceData :=
  mkInvoiceData (Some "inv-a") "BSMOM-1692023000000" 1692023000000 "Asha" "9876543210"
    [mkBillItem groundnut_oil 3%float None]
    750%float 37.5%float 787.5%float "op-1" (Some (mkTimestamp 1692023000 0)).

(* ------------------------------------------------------------------ *)
(** ** What the App component shows *)

(** The element the component returns: the loading notice, the login
    screen, or the page with one of its four bodies. *)
Inductive Screen : Type :=
| LoadingScreen
| AuthScreen
| InvoiceScreen (invoiceData : InvoiceData) (backButtonText : string)
| BillingFormScreen (products : list Product)
| ProductManagerScreen (products : list Product)
| BillHistoryScreen (user : User).

Definition App_main (s : AppState) : Screen :=
  if loading s then LoadingScreen
  else
    match user s with
    | None => AuthScreen
    | Some u =>
        match currentInvoice s with
        | Some inv =>
            InvoiceScreen inv
              (match view s with
               | ViewHistory => "Back to History"
               | _ => "Create New Bill"
               end)
        | None =>
            match view s with
            | ViewForm => BillingFormScreen (products s)
            | ViewProducts => ProductManagerScreen (products s)
            | ViewHistory => BillHistoryScreen u
            end
        end
    end.

Definition View_eqb (a b : View) : bool :=
  match a, b with
  | ViewForm, ViewForm | ViewHistory, ViewHistory | ViewProducts, ViewProducts => true
  | _, _ => false
  end.

(** A navigation button is highlighted when
    [view === tab && !currentInvoice]. *)
Definition nav_active (s : AppState) (tab : View) : bool :=
  (View_eqb (view s) tab
   && match currentInvoice s with Some _ => false | None => true end)%bool.

(* ------------------------------------------------------------------ *)
(** ** The ProductManager component *)

(** Truthiness of a string. *)
Definition truthy_string (s : string) : bool :=
  match s with EmptyString => false | String _ _ => true end.

(** [Number.isFinite] *)
Definition Number_isFinite (x : float) : bool := PrimFloat.is_finite x.

Record ProductManagerState : Type := mkProductManagerState {
  newProdName : string;
  newProdPrice : string;
  pm_error : option string;
  pm_searchTerm : string
}.

(** [useState('')], [useState('')], [useState(null)], [useState('')]. *)
Definition initialProductManager : ProductManagerState :=
  mkProductManagerState EmptyString EmptyString None EmptyString.

(** A child component runs on its own state beside the state of the
    component that passes it its callbacks. *)
Definition in_child {C P A} (m : M C A) : M (C * P) A :=
  fun w s =>
    let r := m w (fst s) in
    mkResult (outcome r) (final r, snd s) (trace r).

(** Calling a callback prop: it runs on the parent's state. *)
Definition call_prop {C P A} (m : M P A) : M (C * P) A :=
  fun w s =>
    let r := m w (snd s) in
    mkResult (outcome r) (fst s, final r) (trace r).

Module ProductManager.

Definition setNewProdName (v : string) : M ProductManagerState unit :=
  update (fun s => mkProductManagerState v (newProdPrice s) (pm_error s) (pm_searchTerm s)).
Definition setNewProdPrice (v : string) : M ProductManagerState unit :=
  update (fun s => mkProductManagerState (newProdName s) v (pm_error s) (pm_searchTerm s)).
Definition setError (e : option string) : M ProductManagerState unit :=
  update (fun s => mkProductManagerState (newProdName s) (newProdPrice s) e (pm_searchTerm s)).
Definition setSearchTerm (v : string) : M ProductManagerState unit :=
  update (fun s => mkProductManagerState (newProdName s) (newProdPrice s) (pm_error s) v).

Section Component.

(** [parseFloat], [String.prototype.trim] and [Number.prototype.toString]
    are computed by the host; the callbacks are the props of the
    component. *)
Variable parseFloat : string -> float.
Variable trim : string -> string.
Variable Number_toString : float -> string.
Variable onAddProduct : string -> float -> M AppState unit.
Variable onDeleteProduct : Z -> option string -> M AppState unit.

Definition handleAddProduct : M (ProductManagerState * AppState) unit :=
  newProdName <- in_child (read newProdName) ;;
  newProdPrice <- in_child (read newProdPrice) ;;
  let name := trim newProdName in
  let price := parseFloat newProdPrice in
  if negb (truthy_string name) then
    in_child (setError (Some "Product name is required."))
  else if (negb (Number_isFinite price) || (price <=? 0)%float)%bool then
    in_child (setError (Some "Enter a valid price greater than 0."))
  else
    call_prop (onAddProduct name price) ;;
    in_child (setNewProdName EmptyString) ;;
    in_child (setNewProdPrice EmptyString) ;;
    in_child (setError None).

(** [confirmed] is the operator's answer to the [confirm] dialog. *)
Definition handleDeleteProduct (confirmed : bool) (id : Z) (docId : option string)
    : M (ProductManagerState * AppState) unit :=
  if confirmed then call_prop (onDeleteProduct id docId) else ret tt.

(** Filter products based on search term.  [product.id.toString()] is
    the decimal rendering of the code (as it is below 10^21). *)
Definition filteredProducts (products : list Product) (searchTerm : string)
    : list Product :=
  filter (fun product =>
            includes (toLowerCase (p_name product)) (toLowerCase searchTerm)
            || includes (Z_to_string (p_id product)) searchTerm
            || includes (Number_toString (p_price product)) searchTerm)%bool
         products.

End Component.

End ProductManager.

(* ------------------------------------------------------------------ *)
(** ** Vocabulary of the further properties *)

Definition form_with (name price : string) : ProductManagerState :=
  mkProductManagerState name price None EmptyString.

(** Text of ASCII characters only. *)
Definition ascii_text (s : string) : bool :=
  all_chars (fun c => (nat_of_ascii c <? 128)%nat) s.

(** A timestamp as Firestore makes them: nanoseconds below a second. *)
Definition valid_stamp (t : Timestamp) : Prop :=
  0 <= nanoseconds t < 1000000000.

(** [a] is not later than [b]. *)
Definition stamp_le (a b : Timestamp) : Prop :=
  seconds a < seconds b
  \/ (seconds a = seconds b /\ nanoseconds a <= nanoseconds b).

(** Document [d1] was created no earlier than [d2], both being stamped. *)
Definition created_no_earlier (d1 d2 : QueryDocumentSnapshot InvoiceData) : Prop :=
  exists t1 t2,
    createdAt (doc_data d1) = Some t1 /\ createdAt (doc_data d2) = Some t2
    /\ valid_stamp t1 /\ valid_stamp t2 /\ stamp_le t2 t1.

Definition failed_history : HistoryState :=
  mkHistoryState [] false (Some "Failed to fetch invoice history.") EmptyString.

(** Two states of the App that differ at most in the catalog, and at
    most in the current invoice. *)
Definition same_but_catalog (a b : AppState) : Prop :=
  user a = user b /\ loading a = loading b /\ view a = view b
  /\ currentInvoice a = currentInvoice b.

Definition same_but_invoice (a b : AppState) : Prop :=
  user a = user b /\ loading a = loading b /\ view a = view b
  /\ products a = products b.

Definition twin_products : list Product :=
  [ mkProduct 5 "Sunflower Oil 1L" 140%float (Some "doc-a");
    mkProduct 5 "Sunflower Oil 1L" 145%float (Some "doc-b") ].

Definition later_draft : InvoiceData :=
  mkInvoiceData None "BSMOM-1700000000001" 1700000000001 "Asha" "9876543210"
    [mkBillItem groundnut_oil 3%float None]
    750%float 37.5%float 787.5%float "op-1" None.

Definition a_millisecond_later : World :=
  mkWorld (fun _ _ => Fulfilled "doc-2") (fun _ _ => Fulfilled tt)
          (fun _ => Fulfilled []) (fun _ => Fulfilled [])
          1700000000001 1700000000001.

(* ------------------------------------------------------------------ *)
(** * Properties *)

(** ** Invoice lifecycle *)

Lemma fold_left_line_totals (billItems : list BillItem) (acc : float) :
  fold_left (fun a item => (a + p_price (product item) * quantity item)%float)
            billItems acc
  = fold_left PrimFloat.add (map line_total billItems) acc.
Proof.
  revert acc.
  induction billItems as [|item rest IH]; intro acc; simpl.
  - reflexivity.
  - rewrite IH. reflexivity.
Qed.

(** C1. With an operator logged in, [handleGenerateBill] makes a draft the
    current invoice whose subtotal is the sum over the line items of
    price times quantity, whose tax amount is subtotal times [GST_RATE]
    and whose grand total is subtotal plus tax; for the single line of
    price 250 and quantity 3 at rate 0.05 these are 750, 37.5 and 787.5. *)
Theorem generate_bill_totals
    (GST_RATE : float) (w : World) (st : AppState) (u : User)
    (customerName customerPhone : string) (billItems : list BillItem)
    (Hu : user st = Some u) :
  exists inv,
    currentInvoice
      (final (run (handleGenerateBill GST_RATE customerName customerPhone billItems) w st))
      = Some inv
    /\ items inv = billItems
    /\ subtotal inv = sum_in_order (map line_total billItems)
    /\ gstAmount inv = (subtotal inv * GST_RATE)%float
    /\ grandTotal inv = (subtotal inv + gstAmount inv)%float
    /\ (GST_RATE = rate_5_percent ->
        map (fun i => (p_price (product i), quantity i)) billItems
          = [(250%float, 3%float)] ->
        subtotal inv = 750%float
        /\ gstAmount inv = 37.5%float
        /\ grandTotal inv = 787.5%float).
Proof.
  unfold run, handleGenerateBill, bind, read, ask, setCurrentInvoice, update.
  cbn. rewrite Hu. cbn.
  eexists. split; [reflexivity|]. cbn.
  rewrite fold_left_line_totals.
  do 4 (split; [reflexivity|]).
  intros Hrate Hlines.
  destruct billItems as [|i [|j rest]]; try discriminate Hlines.
  cbn in Hlines. injection Hlines as Hprice Hqty.
  unfold sum_in_order, line_total. cbn.
  rewrite Hprice, Hqty, Hrate.
  repeat split; reflexivity.
Qed.

Lemma generate_bill_totals_witness :
  exists inv,
    currentInvoice
      (final (run (handleGenerateBill rate_5_percent "Asha" "9876543210"
                     [mkBillItem groundnut_oil 3%float None])
                  online (logged_in "op-1" [groundnut_oil])))
      = Some inv
    /\ subtotal inv = 750%float
    /\ gstAmount inv = 37.5%float
    /\ grandTotal inv = 787.5%float.
Proof.
  destruct (generate_bill_totals rate_5_percent online
              (logged_in "op-1" [groundnut_oil]) (mkUser "op-1")
              "Asha" "9876543210" [mkBillItem groundnut_oil 3%float None]
              eq_refl)
    as (inv & Hc & _ & _ & _ & _ & Hex).
  exists inv. split; [exact Hc|].
  apply Hex; reflexivity.
Defined.

(** C2. Without an operator identity [handleGenerateBill] only reports
    that a login is required: the component state, and with it the
    current invoice, is unchanged, and no Firestore request is issued. *)
Theorem generate_bill_unauthorized
    (GST_RATE : float) (w : World) (st : AppState)
    (customerName customerPhone : string) (billItems : list BillItem)
    (Hu : user st = None) :
  let r := run (handleGenerateBill GST_RATE customerName customerPhone billItems) w st in
  trace r = [Alert "You must be logged in to generate a bill."]
  /\ outcome r = Normal tt
  /\ final r = st
  /\ currentInvoice (final r) = currentInvoice st
  /\ remote_calls (trace r) = [].
Proof.
  unfold run, handleGenerateBill, bind, read, alert, emit.
  cbn. rewrite Hu. cbn. repeat split.
Qed.

Lemma generate_bill_unauthorized_witness :
  let r := run (handleGenerateBill rate_5_percent "Asha" "9876543210"
                  [mkBillItem groundnut_oil 3%float None])
               online (logged_out [groundnut_oil]) in
  trace r = [Alert "You must be logged in to generate a bill."]
  /\ outcome r = Normal tt
  /\ final r = logged_out [groundnut_oil]
  /\ currentInvoice (final r) = None
  /\ remote_calls (trace r) = [].
Proof.
  exact (generate_bill_unauthorized rate_5_percent online
           (logged_out [groundnut_oil]) "Asha" "9876543210"
           [mkBillItem groundnut_oil 3%float None] eq_refl).
Defined.

(** C9. The [onAuthStateChanged] listener, whatever the state it runs in
    and whether it reports a login or a logout, drops the current invoice
    and shows the billing form; it stores the reported identity and
    touches neither the catalog nor Firestore. *)
Theorem auth_change_resets (w : World) (st : AppState) (u : option User) :
  let r := run (onAuthStateChanged u) w st in
  NoDraft (final r)
  /\ view (final r) = ViewForm
  /\ user (final r) = u
  /\ loading (final r) = false
  /\ products (final r) = products st
  /\ trace r = [].
Proof.
  unfold NoDraft. repeat split.
Qed.

(** C5. With an operator logged in, [handleSaveInvoice] on a draft whose
    remote write is rejected leaves the component state as it was and
    answers [false] after alerting, so that the same call, once the write
    is accepted, makes the draft with the assigned document id the
    current invoice; when the write is accepted it does so at once and
    answers [true].  The invoice made current carries the id of the new
    document and is the draft in every other field. *)
Theorem save_invoice_outcomes
    (w : World) (st : AppState) (u : User) (invoiceData : InvoiceData)
    (Hu : user st = Some u) :
  let r := run (handleSaveInvoice invoiceData) w st in
  (forall e, addDoc_settles w "invoices" (InvoiceFields invoiceData) = Rejected e ->
     final r = st
     /\ outcome r = Normal (Some false)
     /\ trace r = [Remote (AddDoc "invoices" (InvoiceFields invoiceData)) false;
                   ConsoleError "Error adding document: ";
                   Alert "Failed to save the invoice. Please try again."]
     /\ forall w' docId,
          addDoc_settles w' "invoices" (InvoiceFields invoiceData) = Fulfilled docId ->
          let r' := run (handleSaveInvoice invoiceData) w' (final r) in
          currentInvoice (final r') = Some (with_id invoiceData docId)
          /\ outcome r' = Normal (Some true)
          /\ exists saved,
               currentInvoice (final r') = Some saved
               /\ is_saved_copy invoiceData docId saved)
  /\ (forall docId,
        addDoc_settles w "invoices" (InvoiceFields invoiceData) = Fulfilled docId ->
        currentInvoice (final r) = Some (with_id invoiceData docId)
        /\ outcome r = Normal (Some true)
        /\ products (final r) = products st
        /\ user (final r) = user st
        /\ trace r = [Remote (AddDoc "invoices" (InvoiceFields invoiceData)) true]
        /\ exists saved,
             currentInvoice (final r) = Some saved
             /\ is_saved_copy invoiceData docId saved).
Proof.
  assert (Hcopy : forall docId, is_saved_copy invoiceData docId (with_id invoiceData docId)).
  { intro docId. unfold is_saved_copy, with_id. cbn. repeat split. }
  assert (Hok : forall w0 s0 docId,
             user s0 = Some u ->
             addDoc_settles w0 "invoices" (InvoiceFields invoiceData) = Fulfilled docId ->
             let r0 := run (handleSaveInvoice invoiceData) w0 s0 in
             currentInvoice (final r0) = Some (with_id invoiceData docId)
             /\ outcome r0 = Normal (Some true)
             /\ products (final r0) = products s0
             /\ user (final r0) = user s0
             /\ trace r0 = [Remote (AddDoc "invoices" (InvoiceFields invoiceData)) true]).
  { intros w0 s0 docId Hu0 Hw.
    destruct s0 as [us ld vw ci ps]. cbn in Hu0. subst us.
    unfold run, handleSaveInvoice, bind, read, try_catch, addDoc, await.
    cbn. rewrite Hw. cbn. repeat split. }
  assert (Hfail : forall e,
             addDoc_settles w "invoices" (InvoiceFields invoiceData) = Rejected e ->
             run (handleSaveInvoice invoiceData) w st
             = mkResult (Normal (Some false)) st
                 [Remote (AddDoc "invoices" (InvoiceFields invoiceData)) false;
                  ConsoleError "Error adding document: ";
                  Alert "Failed to save the invoice. Please try again."]).
  { intros e Hw.
    destruct st as [us ld vw ci ps]. cbn in Hu. subst us.
    unfold run, handleSaveInvoice, bind, read, try_catch, addDoc, await.
    cbn. rewrite Hw. cbn. reflexivity. }
  intro r. subst r. split.
  - intros e Hw. rewrite (Hfail e Hw). cbn.
    do 3 (split; [reflexivity|]).
    intros w' docId Hw'.
    destruct (Hok w' st docId Hu Hw') as (Hcur & Hout & _).
    split; [exact Hcur|]. split; [exact Hout|].
    exists (with_id invoiceData docId). split; [exact Hcur | apply Hcopy].
  - intros docId Hw.
    destruct (Hok w st docId Hu Hw) as (Hcur & Hout & Hps & Hus & Htr).
    do 5 (split; [assumption|]).
    exists (with_id invoiceData docId). split; [exact Hcur | apply Hcopy].
Qed.

Lemma save_invoice_outcomes_witness :
  let st := with_draft sample_draft (logged_in "op-1" [groundnut_oil]) in
  let r := run (handleSaveInvoice sample_draft) offline st in
  final r = st
  /\ exists saved,
       currentInvoice (final (run (handleSaveInvoice sample_draft) online (final r)))
       = Some saved
       /\ i_id saved = Some "doc-1"
       /\ invoiceNumber saved = "BSMOM-1700000000000"
       /\ grandTotal saved = 787.5%float.
Proof.
  intros st r.
  destruct (save_invoice_outcomes offline st (mkUser "op-1") sample_draft eq_refl)
    as [Hfail _].
  destruct (Hfail "unavailable" eq_refl) as (Hst & _ & _ & Hretry).
  split.
  - exact Hst.
  - destruct (Hretry online "doc-1" eq_refl) as (_ & _ & saved & Hcur & Hcopy).
    exists saved. split; [exact Hcur|].
    destruct Hcopy as (Hid & Hnum & _ & _ & _ & _ & _ & _ & Htotal & _).
    split; [exact Hid|]. split; [exact Hnum | exact Htotal].
Defined.

(* ------------------------------------------------------------------ *)
(** ** Product catalog *)

Lemma fold_left_max_from (ps : list Product) (m : Z) :
  0 <= m ->
  fold_left (fun m p => Math_max m (p_id p)) ps m
  = Z.max m (max_id_or_0 ps).
Proof.
  unfold max_id_or_0, Math_max. revert m.
  induction ps as [|p rest IH]; intros m Hm; simpl.
  - symmetry. apply Z.max_l. exact Hm.
  - rewrite IH by (apply Z.le_trans with m; [exact Hm | apply Z.le_max_l]).
    rewrite Z.max_assoc. reflexivity.
Qed.

Lemma max_id_or_0_nonneg (ps : list Product) : 0 <= max_id_or_0 ps.
Proof.
  unfold max_id_or_0. induction ps as [|p rest IH]; simpl; lia.
Qed.

Lemma max_id_or_0_upper (ps : list Product) (p : Product) :
  In p ps -> p_id p <= max_id_or_0 ps.
Proof.
  unfold max_id_or_0. induction ps as [|q rest IH]; simpl.
  - intros [].
  - intros [-> | Hin]; [lia | specialize (IH Hin); lia].
Qed.

Lemma max_id_or_0_attained (ps : list Product) :
  max_id_or_0 ps = 0 \/ exists p, In p ps /\ p_id p = max_id_or_0 ps.
Proof.
  unfold max_id_or_0. induction ps as [|q rest IH]; simpl.
  - left. reflexivity.
  - destruct (Z.max_spec (p_id q) (fold_right Z.max 0 (map p_id rest)))
      as [[_ Hm] | [_ Hm]]; rewrite Hm.
    + destruct IH as [H0 | (p & Hin & Hp)].
      * left. exact H0.
      * right. exists p. split; [right; exact Hin | exact Hp].
    + right. exists q. split; [left; reflexivity | reflexivity].
Qed.

Lemma Number_succ_exact (n : Z) : n < 2 ^ 53 -> Number_succ n = n + 1.
Proof.
  intro H. unfold Number_succ.
  destruct (Z.ltb_spec n (2 ^ 53)); [reflexivity | lia].
Qed.

Lemma Number_succ_ge (n : Z) : n <= Number_succ n.
Proof.
  unfold Number_succ.
  destruct (n <? 2 ^ 53); [lia|].
  destruct ((n <? 2 ^ 54) && Z.odd (n / 2))%bool; lia.
Qed.

(** [Number_succ] is the rounded sum: on a binary64 value [n >= 0] it
    gives the binary64 value nearest to [n + 1]. *)
Lemma Number_succ_is_rounded_sum (n : Z) :
  0 <= n -> nearest_binary64 n = n ->
  Number_succ n = nearest_binary64 (n + 1).
Proof.
  intros Hn Hrep.
  destruct (Z.ltb_spec n (2 ^ 53)) as [Hsmall | Hbig].
  - rewrite (Number_succ_exact n Hsmall).
    unfold nearest_binary64.
    rewrite Z.abs_eq by lia.
    destruct (Z.eq_dec (n + 1) (2 ^ 53)) as [Heq | Hne].
    + rewrite Heq. vm_compute. reflexivity.
    + assert (Hlog : Z.log2 (n + 1) < 53).
      { apply Z.log2_lt_pow2; lia. }
      destruct (Z.leb_spec (Z.log2 (n + 1) - 52) 0); [reflexivity | lia].
  - assert (Hk : 53 <= Z.log2 n) by (apply Z.log2_le_pow2; lia).
    set (k := Z.log2 n) in *.
    set (e := k - 52).
    assert (He : 1 <= e) by (subst e; lia).
    assert (Hd : 0 < 2 ^ e) by (apply Z.pow_pos_nonneg; lia).
    pose proof (Z.log2_spec n ltac:(lia)) as [Hlo Hhi]. fold k in Hlo, Hhi.
    assert (Hmult : n mod 2 ^ e = 0).
    { unfold nearest_binary64 in Hrep. rewrite Z.abs_eq in Hrep by lia.
      fold k in Hrep. fold e in Hrep.
      destruct (Z.leb_spec e 0); [lia|].
      unfold round_to_even in Hrep.
      pose proof (Z.div_mod n (2 ^ e) ltac:(lia)) as Hdm.
      pose proof (Z.mod_pos_bound n (2 ^ e) Hd) as Hr.
      destruct (n mod 2 ^ e <? 2 ^ (e - 1));
        [|destruct (2 ^ (e - 1) <? n mod 2 ^ e);
          [|destruct (Z.even (n / 2 ^ e))]]; nia. }
    set (q := n / 2 ^ e).
    assert (Hnq : n = q * 2 ^ e).
    { pose proof (Z.div_mod n (2 ^ e) ltac:(lia)) as Hdm. fold q in Hdm. lia. }
    assert (Hpow : 2 ^ (k + 1) = 2 ^ 53 * 2 ^ e).
    { replace (k + 1) with (53 + e) by (subst e; lia).
      apply Z.pow_add_r; lia. }
    assert (Hq : q < 2 ^ 53) by nia.
    assert (Hd2 : 2 <= 2 ^ e).
    { change 2 with (2 ^ 1) at 1. apply Z.pow_le_mono_r; lia. }
    assert (Hnext : n + 1 < 2 ^ (k + 1)) by nia.
    assert (Hlog : Z.log2 (n + 1) = k).
    { apply Z.log2_unique; lia. }
    assert (Hdiv : (n + 1) / 2 ^ e = q).
    { symmetry. apply (Z.div_unique (n + 1) (2 ^ e) q 1); lia. }
    assert (Hmod : (n + 1) mod 2 ^ e = 1).
    { symmetry. apply (Z.mod_unique (n + 1) (2 ^ e) q 1); lia. }
    unfold nearest_binary64. rewrite Z.abs_eq by lia.
    rewrite Hlog. fold e.
    destruct (Z.leb_spec e 0); [lia|].
    unfold round_to_even. rewrite Hdiv, Hmod.
    unfold Number_succ.
    destruct (Z.ltb_spec n (2 ^ 53)); [lia|].
    destruct (Z.eq_dec e 1) as [He1 | He1].
    + assert (Hk53 : k = 53) by (subst e; lia).
      rewrite He1. change (2 ^ (1 - 1)) with 1. change (2 ^ 1) with 2.
      change (1 <? 1) with false. cbv iota.
      assert (Hlt : n < 2 ^ 54) by (rewrite Hk53 in Hhi; exact Hhi).
      destruct (Z.ltb_spec n (2 ^ 54)); [|lia].
      assert (Hq2 : q = n / 2) by (subst q; rewrite He1; reflexivity).
      rewrite <- Hq2. rewrite <- Z.negb_even.
      rewrite He1 in Hnq. change (2 ^ 1) with 2 in Hnq.
      destruct (Z.even q); cbn [negb andb]; lia.
    + assert (Hhalf : 2 <= 2 ^ (e - 1)).
      { change 2 with (2 ^ 1) at 1. apply Z.pow_le_mono_r; lia. }
      destruct (Z.ltb_spec 1 (2 ^ (e - 1))); [|lia].
      assert (Hbig2 : 2 ^ 54 <= n).
      { apply Z.le_trans with (2 ^ k); [apply Z.pow_le_mono_r; subst e; lia | exact Hlo]. }
      destruct (Z.ltb_spec n (2 ^ 54)); [lia|].
      cbn [andb]. lia.
Qed.

(** The whole run of [handleAddProduct], by the way the create settles. *)
Lemma add_product_run (w : World) (st : AppState) (name : string) (price : float) :
  run (handleAddProduct name price) w st
  = match addDoc_settles w "products"
            (ProductFields (Number_succ (max_id_or_0 (products st))) name price) with
    | Fulfilled docRef =>
        mkResult (Normal tt)
          (mkAppState (user st) (loading st) (view st) (currentInvoice st)
             (products st
              ++ [mkProduct (Number_succ (max_id_or_0 (products st))) name price
                    (Some docRef)]))
          [Remote (AddDoc "products"
                     (ProductFields (Number_succ (max_id_or_0 (products st))) name price))
             true]
    | Rejected _ =>
        mkResult (Normal tt) st
          [Remote (AddDoc "products"
                     (ProductFields (Number_succ (max_id_or_0 (products st))) name price))
             false;
           ConsoleError "Failed to add product";
           Alert "Failed to add product. Please try again."]
    end.
Proof.
  assert (Hmax : fold_left (fun m p => Math_max m (p_id p)) (products st) 0
                 = max_id_or_0 (products st)).
  { rewrite fold_left_max_from by reflexivity.
    pose proof (max_id_or_0_nonneg (products st)). lia. }
  unfold run, handleAddProduct, bind, read, try_catch, addDoc, await.
  cbn. rewrite Hmax.
  destruct (addDoc_settles w "products" _) as [docRef|e]; reflexivity.
Qed.

(** C3, amended. [handleAddProduct] asks Firestore to create the product
    under the code [maxId + 1], taken as a JavaScript number, where
    [maxId] is max(0, codes of the catalog).  When the create is rejected
    the component state is unchanged and the failure is alerted; when it
    is accepted the product, with that code and the new document id, is
    appended to the catalog.  While [maxId] is below 2^53 the code is
    exactly 1 + [maxId]: it is 1 for an empty catalog, exceeds every code
    in the catalog, and is one more than the greatest code as soon as
    the catalog holds a non-negative code.  From 2^53 on the sum is
    rounded to a binary64 value, and the code is still never below a code
    of the catalog. *)
Theorem add_product_outcomes
    (w : World) (st : AppState) (name : string) (price : float) :
  let r := run (handleAddProduct name price) w st in
  let maxId := max_id_or_0 (products st) in
  let nextId := Number_succ maxId in
  (forall e,
      addDoc_settles w "products" (ProductFields nextId name price) = Rejected e ->
      final r = st
      /\ outcome r = Normal tt
      /\ trace r = [Remote (AddDoc "products" (ProductFields nextId name price)) false;
                    ConsoleError "Failed to add product";
                    Alert "Failed to add product. Please try again."])
  /\ (forall docRef,
      addDoc_settles w "products" (ProductFields nextId name price) = Fulfilled docRef ->
      products (final r)
        = products st ++ [mkProduct nextId name price (Some docRef)]
      /\ currentInvoice (final r) = currentInvoice st
      /\ trace r = [Remote (AddDoc "products" (ProductFields nextId name price)) true])
  /\ (maxId < 2 ^ 53 ->
      nextId = 1 + maxId
      /\ (products st = [] -> nextId = 1)
      /\ (forall p, In p (products st) -> p_id p < nextId)
      /\ ((exists p, In p (products st) /\ 0 <= p_id p) ->
          exists top, In top (products st) /\ nextId = 1 + p_id top
                      /\ forall p, In p (products st) -> p_id p <= p_id top))
  /\ (forall p, In p (products st) -> p_id p <= nextId)
  /\ (nearest_binary64 maxId = maxId -> nextId = nearest_binary64 (maxId + 1)).
Proof.
  intros r maxId nextId. subst r.
  rewrite add_product_run. fold maxId. fold nextId.
  split; [|split; [|split; [|split]]].
  - intros e Hw. rewrite Hw. repeat split.
  - intros docRef Hw. rewrite Hw. repeat split.
  - intro Hsafe.
    assert (Hnext : nextId = 1 + maxId).
    { subst nextId. rewrite (Number_succ_exact maxId Hsafe). lia. }
    split; [exact Hnext|]. split; [|split].
    + intro Hnil. rewrite Hnext. subst maxId. rewrite Hnil. reflexivity.
    + intros p Hin. rewrite Hnext. subst maxId.
      pose proof (max_id_or_0_upper _ _ Hin). lia.
    + intros (p & Hin & Hp). rewrite Hnext. subst maxId.
      destruct (max_id_or_0_attained (products st)) as [H0 | (top & Htop & Hmax)].
      * exists p. pose proof (max_id_or_0_upper _ _ Hin) as Hle.
        split; [exact Hin|]. split; [lia|].
        intros q Hq. pose proof (max_id_or_0_upper _ _ Hq). lia.
      * exists top. split; [exact Htop|]. split; [lia|].
        intros q Hq. pose proof (max_id_or_0_upper _ _ Hq). lia.
  - intros p Hin. subst nextId maxId.
    pose proof (max_id_or_0_upper _ _ Hin).
    pose proof (Number_succ_ge (max_id_or_0 (products st))). lia.
  - intro Hrep. subst nextId.
    apply Number_succ_is_rounded_sum; [|exact Hrep].
    subst maxId. apply max_id_or_0_nonneg.
Qed.

Lemma add_product_outcomes_witness :
  final (run (handleAddProduct "Sesame Oil 500ml" 180%float) offline
             (logged_in "op-1" three_products))
    = logged_in "op-1" three_products
  /\ products (final (run (handleAddProduct "Sesame Oil 500ml" 180%float) online
                          (logged_in "op-1" three_products)))
     = three_products ++ [mkProduct 4 "Sesame Oil 500ml" 180%float (Some "doc-1")]
  /\ forall p, In p three_products -> p_id p < 4.
Proof.
  split; [|split].
  - destruct (add_product_outcomes offline (logged_in "op-1" three_products)
                "Sesame Oil 500ml" 180%float) as (Hfail & _).
    exact (proj1 (Hfail "unavailable" eq_refl)).
  - destruct (add_product_outcomes online (logged_in "op-1" three_products)
                "Sesame Oil 500ml" 180%float) as (_ & Hok & _).
    exact (proj1 (Hok "doc-1" eq_refl)).
  - destruct (add_product_outcomes online (logged_in "op-1" three_products)
                "Sesame Oil 500ml" 180%float) as (_ & _ & Hsafe & _).
    exact (proj1 (proj2 (proj2 (Hsafe eq_refl)))).
Defined.

(** C3, the claim as worded fails: with a product of code 2^53 in the
    catalog, [maxId + 1] is 2^53 again, so the product of an accepted add
    gets the code 2^53, not 2^53 + 1, and shares it with the old one. *)
Lemma add_takes_next_integer_fails :
  products (final (run (handleAddProduct "Sesame Oil 500ml" 180%float) online
                       (logged_in "op-1" catalog_at_2_53)))
    = catalog_at_2_53
      ++ [mkProduct 9007199254740992 "Sesame Oil 500ml" 180%float (Some "doc-1")]
  /\ ~ add_takes_next_integer online (logged_in "op-1" catalog_at_2_53)
        "Sesame Oil 500ml" 180%float.
Proof.
  split; [reflexivity|].
  unfold add_takes_next_integer. intro Hclaim.
  destruct Hclaim as [docRef Heq].
  - eexists. left. reflexivity.
  - apply (f_equal (map p_id)) in Heq. vm_compute in Heq. discriminate Heq.
Qed.

Lemma in_without_id (id : Z) (ps : list Product) (p : Product) :
  In p (without_id id ps) <-> In p ps /\ p_id p <> id.
Proof.
  unfold without_id. rewrite filter_In, negb_true_iff, Z.eqb_neq. reflexivity.
Qed.

Lemma find_product_absent (pred : Product -> bool) (ps : list Product) :
  (forall p, In p ps -> pred p = false) -> find_product pred ps = None.
Proof.
  unfold find_product.
  induction ps as [|q rest IH]; intro Hall; simpl.
  - reflexivity.
  - rewrite (Hall q (or_introl eq_refl)).
    apply IH. intros p Hin. apply Hall. right. exact Hin.
Qed.

Lemma delete_run_unresolved (w : World) (st : AppState) (id : Z) (docId : option string) :
  resolved_ref (products st) id docId = None ->
  run (handleDeleteProduct id docId) w st
  = mkResult (Normal tt)
      (mkAppState (user st) (loading st) (view st) (currentInvoice st)
         (without_id id (products st)))
      [].
Proof.
  unfold resolved_ref, run, handleDeleteProduct, bind, read, try_catch.
  cbn. intro Hres.
  destruct (if_truthy docId) as [ref|]; [discriminate Hres|].
  rewrite Hres. reflexivity.
Qed.

Lemma delete_run_resolved (w : World) (st : AppState) (id : Z) (docId : option string)
    (ref : string) :
  resolved_ref (products st) id docId = Some ref ->
  run (handleDeleteProduct id docId) w st
  = match deleteDoc_settles w "products" ref with
    | Fulfilled _ =>
        mkResult (Normal tt)
          (mkAppState (user st) (loading st) (view st) (currentInvoice st)
             (without_id id (products st)))
          [Remote (DeleteDoc "products" ref) true]
    | Rejected _ =>
        mkResult (Normal tt) st
          [Remote (DeleteDoc "products" ref) false;
           ConsoleError "Failed to delete product from Firestore";
           Alert "Failed to delete product from database."]
    end.
Proof.
  unfold resolved_ref, run, handleDeleteProduct, bind, read, try_catch, deleteDoc, await.
  cbn. intro Hres.
  destruct (if_truthy docId) as [ref0|].
  - injection Hres as ->. cbn.
    destruct (deleteDoc_settles w "products" ref) as [[]|e]; reflexivity.
  - rewrite Hres. cbn.
    destruct (deleteDoc_settles w "products" ref) as [[]|e]; reflexivity.
Qed.

(** C4, the claim as worded fails: deleting the code of a built-in
    product, which has no document, removes it from the catalog although
    no remote delete was issued (here, with Firestore unreachable). *)
Lemma delete_is_remote_first_fails :
  products (final (run (handleDeleteProduct 1 None) offline
                       (logged_in "op-1" [groundnut_oil]))) = []
  /\ trace (run (handleDeleteProduct 1 None) offline
                (logged_in "op-1" [groundnut_oil])) = []
  /\ ~ delete_is_remote_first offline (logged_in "op-1" [groundnut_oil]) 1 None.
Proof.
  split; [reflexivity|]. split; [reflexivity|].
  unfold delete_is_remote_first. cbn. intros [_ Hrem].
  destruct Hrem as [ref Hin].
  - discriminate.
  - exact Hin.
Qed.

(** C4, amended. When [handleDeleteProduct] has a document to delete (the
    [docId] argument, or the one found in the catalog for the code), it
    issues exactly that remote delete first: if it is rejected the
    component state is unchanged and the failure is alerted, and the
    entries of the code leave the catalog only after it has succeeded.
    When there is no document to delete, no remote delete is issued and
    the entries are removed locally. *)
Theorem delete_product_outcomes
    (w : World) (st : AppState) (id : Z) (docId : option string) :
  let r := run (handleDeleteProduct id docId) w st in
  (forall ref, resolved_ref (products st) id docId = Some ref ->
     (forall e, deleteDoc_settles w "products" ref = Rejected e ->
        final r = st
        /\ outcome r = Normal tt
        /\ trace r = [Remote (DeleteDoc "products" ref) false;
                      ConsoleError "Failed to delete product from Firestore";
                      Alert "Failed to delete product from database."])
     /\ (deleteDoc_settles w "products" ref = Fulfilled tt ->
         products (final r) = without_id id (products st)
         /\ trace r = [Remote (DeleteDoc "products" ref) true])
     /\ (products (final r) <> products st ->
         trace r = [Remote (DeleteDoc "products" ref) true]))
  /\ (resolved_ref (products st) id docId = None ->
      products (final r) = without_id id (products st)
      /\ trace r = []).
Proof.
  intro r. subst r. split.
  - intros ref Hres. rewrite (delete_run_resolved w st id docId ref Hres).
    destruct (deleteDoc_settles w "products" ref) as [[]|e0]; cbn.
    + split; [intros e He; discriminate He|].
      split; [intros _; split; reflexivity|].
      intros _. reflexivity.
    + split; [intros e He; repeat split|].
      split; [intro He; discriminate He|].
      intro Hne. exfalso. apply Hne. reflexivity.
  - intro Hres. rewrite (delete_run_unresolved w st id docId Hres).
    split; reflexivity.
Qed.

Lemma delete_product_outcomes_witness :
  final (run (handleDeleteProduct 3 (Some "abc")) offline (logged_in "op-1" three_products))
    = logged_in "op-1" three_products
  /\ products (final (run (handleDeleteProduct 3 None) online
                          (logged_in "op-1" three_products)))
     = without_id 3 three_products
  /\ products (final (run (handleDeleteProduct 1 None) offline
                          (logged_in "op-1" three_products)))
     = without_id 1 three_products.
Proof.
  split; [|split].
  - destruct (delete_product_outcomes offline (logged_in "op-1" three_products)
                3 (Some "abc")) as (Hsome & _).
    destruct (Hsome "abc" eq_refl) as (Hrej & _).
    exact (proj1 (Hrej "unavailable" eq_refl)).
  - destruct (delete_product_outcomes online (logged_in "op-1" three_products)
                3 None) as (Hsome & _).
    destruct (Hsome "abc" eq_refl) as (_ & Hok & _).
    exact (proj1 (Hok eq_refl)).
  - destruct (delete_product_outcomes offline (logged_in "op-1" three_products)
                1 None) as (_ & Hnone).
    exact (proj1 (Hnone eq_refl)).
Defined.

(** C10. Called without a [docId] for a code none of whose catalog
    entries has a (non-empty) [docId], [handleDeleteProduct] issues no
    Firestore request, raises no alert, and removes exactly the entries
    of that code from the catalog. *)
Theorem delete_local_only
    (w : World) (st : AppState) (id : Z)
    (Hlocal : forall p, In p (products st) -> p_id p = id -> truthy (p_docId p) = false) :
  let r := run (handleDeleteProduct id None) w st in
  trace r = []
  /\ outcome r = Normal tt
  /\ products (final r) = without_id id (products st)
  /\ (forall p, In p (products (final r)) <-> In p (products st) /\ p_id p <> id)
  /\ currentInvoice (final r) = currentInvoice st.
Proof.
  intro r. subst r.
  assert (Hres : resolved_ref (products st) id None = None).
  { unfold resolved_ref. cbn.
    rewrite find_product_absent; [reflexivity|].
    intros p Hin. destruct (Z.eqb_spec (p_id p) id) as [Heq|Hne]; cbn.
    - apply Hlocal; assumption.
    - reflexivity. }
  rewrite (delete_run_unresolved w st id None Hres). cbn.
  do 3 (split; [reflexivity|]).
  split; [|reflexivity].
  intro p. apply in_without_id.
Qed.

Lemma delete_local_only_witness :
  let r := run (handleDeleteProduct 2 None) offline (logged_in "op-1" three_products) in
  trace r = []
  /\ products (final r)
     = [ mkProduct 1 "Groundnut Oil 1L" 250%float None;
         mkProduct 3 "Coconut Oil 1L" 320%float (Some "abc") ].
Proof.
  assert (Hlocal : forall p, In p (products (logged_in "op-1" three_products)) ->
                             p_id p = 2 -> truthy (p_docId p) = false).
  { cbn. intros p [<- | [<- | [<- | []]]]; cbn; intro H; first [reflexivity | discriminate H]. }
  destruct (delete_local_only offline (logged_in "op-1" three_products) 2 Hlocal)
    as (Htrace & _ & Hprods & _).
  split; [exact Htrace | exact Hprods].
Defined.

(** C8. [loadProducts] issues one request, for the [products] collection
    ordered by [id] ascending.  A fulfilled, non-empty answer replaces
    the whole catalog by the fetched products, in the order of the
    answer; a rejected request sets the catalog to the built-in
    [PRODUCTS]; an empty answer leaves the catalog as it is, which at
    mount time is [PRODUCTS]. *)
Theorem load_products_outcomes
    (PRODUCTS : list Product) (w : World) (st : AppState) :
  let r := run (loadProducts PRODUCTS) w st in
  let q := mkQuery "products" None ("id", Asc) in
  (exists ok, remote_calls (trace r) = [Remote (GetDocs q) ok])
  /\ (forall docs,
        getDocs_products w q = Fulfilled docs -> docs <> [] ->
        products (final r) = map product_of_doc docs
        /\ map p_id (products (final r)) = map (fun d => d_id (doc_data d)) docs
        /\ map p_docId (products (final r)) = map (fun d => Some (doc_id d)) docs)
  /\ (forall e, getDocs_products w q = Rejected e -> products (final r) = PRODUCTS)
  /\ (getDocs_products w q = Fulfilled [] ->
      final r = st
      /\ (products st = PRODUCTS -> products (final r) = PRODUCTS))
  /\ (getDocs_products w q = Fulfilled [] ->
      products (final (run (loadProducts PRODUCTS) w (initialState PRODUCTS))) = PRODUCTS).
Proof.
  intros r q. subst r.
  unfold run, loadProducts, bind, read, try_catch, getDocs_p, await, products_query.
  fold q. cbn.
  destruct (getDocs_products w q) as [[|d docs]|e]; cbn.
  - split; [exists true; reflexivity|].
    split; [intros docs Hd Hne; injection Hd as <-; exfalso; apply Hne; reflexivity|].
    split; [intros e He; discriminate He|].
    split; [intros _; split; [reflexivity | intro Hp; exact Hp]|].
    intros _. reflexivity.
  - split; [exists true; reflexivity|].
    split.
    { intros docs' Hd _. injection Hd as <-. cbn.
      split; [reflexivity|]. split.
      - f_equal. rewrite map_map. reflexivity.
      - f_equal. rewrite map_map. reflexivity. }
    split; [intros e He; discriminate He|].
    split; intro He; discriminate He.
  - split; [exists false; reflexivity|].
    split; [intros docs Hd; discriminate Hd|].
    split; [intros e' _; reflexivity|].
    split; intro He; discriminate He.
Qed.

Lemma load_products_outcomes_witness :
  products (final (run (loadProducts three_products) stocked (initialState three_products)))
    = [ mkProduct 1 "Groundnut Oil 1L" 250%float (Some "d1");
        mkProduct 2 "Sesame Oil 500ml" 180%float (Some "d2") ]
  /\ products (final (run (loadProducts three_products) offline (initialState [])))
     = three_products
  /\ products (final (run (loadProducts three_products) online (initialState three_products)))
     = three_products.
Proof.
  split; [|split].
  - destruct (load_products_outcomes three_products stocked (initialState three_products))
      as (_ & Hfull & _).
    refine (proj1 (Hfull stored_products eq_refl _)). discriminate.
  - destruct (load_products_outcomes three_products offline (initialState []))
      as (_ & _ & Hrej & _).
    exact (Hrej "unavailable" eq_refl).
  - destruct (load_products_outcomes three_products online (initialState three_products))
      as (_ & _ & _ & Hempty & _).
    exact (proj2 (Hempty eq_refl) eq_refl).
Defined.

(* ------------------------------------------------------------------ *)
(** ** Invoice history *)

Lemma bind_normal {S A B} (m : M S A) (k : A -> M S B) (w : World) (s s' : S)
    (a : A) (t : list Event) :
  m w s = mkResult (Normal a) s' t ->
  bind m k w s
  = mkResult (outcome (k a w s')) (final (k a w s')) (t ++ trace (k a w s')).
Proof.
  intro Hm. unfold bind. rewrite Hm. reflexivity.
Qed.

Lemma bind_thrown {S A B} (m : M S A) (k : A -> M S B) (w : World) (s s' : S)
    (e : string) (t : list Event) :
  m w s = mkResult (Thrown e) s' t ->
  bind m k w s = mkResult (Thrown e) s' t.
Proof.
  intro Hm. unfold bind. rewrite Hm. reflexivity.
Qed.

Lemma invoice_of_doc_stamped (d : QueryDocumentSnapshot InvoiceData) (ts : Timestamp)
    (w : World) (s : HistoryState) :
  createdAt (doc_data d) = Some ts ->
  exists inv,
    invoice_of_doc d w s = mkResult (Normal inv) s [] /\ is_invoice_of d inv.
Proof.
  intro Hts. unfold invoice_of_doc. rewrite Hts.
  eexists. split; [reflexivity|].
  exists ts. cbn. rewrite Hts.
  destruct (i_id (doc_data d)); repeat split; reflexivity.
Qed.

Lemma map_docs_stamped (docs : list (QueryDocumentSnapshot InvoiceData))
    (w : World) (s : HistoryState) :
  all_stamped docs = true ->
  exists invs,
    map_throwing invoice_of_doc docs w s = mkResult (Normal invs) s []
    /\ Forall2 is_invoice_of docs invs.
Proof.
  induction docs as [|d rest IH]; intro Hall.
  - exists []. split; [reflexivity | constructor].
  - cbn in Hall. apply andb_true_iff in Hall as [Hd Hrest].
    destruct (IH Hrest) as (invs & Hrun & Hrel).
    destruct (createdAt (doc_data d)) as [ts|] eqn:Hts; [|discriminate Hd].
    destruct (invoice_of_doc_stamped d ts w s Hts) as (inv & Hone & Hinv).
    exists (inv :: invs). split.
    + cbn [map_throwing].
      rewrite (bind_normal _ _ w s s inv [] Hone).
      rewrite (bind_normal _ _ w s s invs [] Hrun).
      reflexivity.
    + constructor; assumption.
Qed.

Lemma map_docs_unstamped (docs : list (QueryDocumentSnapshot InvoiceData))
    (w : World) (s : HistoryState) :
  all_stamped docs = false ->
  exists e, map_throwing invoice_of_doc docs w s = mkResult (Thrown e) s [].
Proof.
  induction docs as [|d rest IH]; intro Hall.
  - discriminate Hall.
  - cbn in Hall. cbn [map_throwing].
    destruct (createdAt (doc_data d)) as [ts|] eqn:Hts.
    + destruct (invoice_of_doc_stamped d ts w s Hts) as (inv & Hone & _).
      destruct (IH Hall) as (e & Hrun).
      exists e.
      rewrite (bind_normal _ _ w s s inv [] Hone).
      rewrite (bind_thrown _ _ w s s e [] Hrun).
      reflexivity.
    + eexists. apply bind_thrown.
      unfold invoice_of_doc. rewrite Hts. reflexivity.
Qed.

(** C6. [fetchInvoices] issues one request: the [invoices] collection,
    [userId] equal to the operator's uid, ordered by [createdAt]
    descending.  A fulfilled answer whose documents are all stamped
    becomes the invoice list, record by record in the order of the
    answer, each dated by its [createdAt].  When the request is rejected
    (or a document lacks its timestamp) the error is set, the invoice
    list is not touched, and the component renders the error message and
    no invoice, whatever list it held before. *)
Theorem fetch_invoices_outcomes
    (toLocaleDateString : Date -> string)
    (w : World) (st : HistoryState) (operator : User) :
  let r := run (fetchInvoices operator) w st in
  let q := mkQuery "invoices" (Some ("userId", uid operator)) ("createdAt", Desc) in
  (exists ok, remote_calls (trace r) = [Remote (GetDocs q) ok])
  /\ h_loading (final r) = false
  /\ (forall docs,
        getDocs_invoices w q = Fulfilled docs -> all_stamped docs = true ->
        Forall2 is_invoice_of docs (invoices (final r))
        /\ error (final r) = error st)
  /\ (forall e,
        getDocs_invoices w q = Rejected e ->
        error (final r) = Some "Failed to fetch invoice history."
        /\ invoices (final r) = invoices st
        /\ render toLocaleDateString (final r)
           = ErrorBox "Failed to fetch invoice history.")
  /\ (forall docs,
        getDocs_invoices w q = Fulfilled docs -> all_stamped docs = false ->
        error (final r) = Some "Failed to fetch invoice history."
        /\ invoices (final r) = invoices st
        /\ render toLocaleDateString (final r)
           = ErrorBox "Failed to fetch invoice history.").
Proof.
  intros r q. subst r.
  unfold run, fetchInvoices, invoices_query. fold q.
  set (body := bind (getDocs_i q) _).
  destruct (getDocs_invoices w q) as [docs|e] eqn:Hq.
  - assert (Hget : getDocs_i q w st
                   = mkResult (Normal docs) st [Remote (GetDocs q) true]).
    { unfold getDocs_i, await. rewrite Hq. reflexivity. }
    destruct (all_stamped docs) eqn:Hall.
    + destruct (map_docs_stamped docs w st Hall) as (invs & Hrun & Hrel).
      assert (Hbody : body w st
                      = mkResult (Normal tt)
                          (mkHistoryState invs (h_loading st) (error st) (searchTerm st))
                          [Remote (GetDocs q) true]).
      { subst body. rewrite (bind_normal _ _ w st st docs _ Hget).
        rewrite (bind_normal _ _ w st st invs [] Hrun). reflexivity. }
      unfold try_finally, try_catch. rewrite Hbody. cbn.
      split; [exists true; reflexivity|].
      split; [reflexivity|].
      split; [intros docs' Hd _; injection Hd as <-; split; [exact Hrel | reflexivity]|].
      split; [intros e He; discriminate He|].
      intros docs' Hd Hall'. injection Hd as <-. congruence.
    + destruct (map_docs_unstamped docs w st Hall) as (e & Hrun).
      assert (Hbody : body w st = mkResult (Thrown e) st [Remote (GetDocs q) true]).
      { subst body. rewrite (bind_normal _ _ w st st docs _ Hget).
        rewrite (bind_thrown _ _ w st st e [] Hrun). reflexivity. }
      unfold try_finally, try_catch. rewrite Hbody. cbn.
      split; [exists true; reflexivity|].
      split; [reflexivity|].
      split; [intros docs' Hd Hall'; injection Hd as <-; congruence|].
      split; [intros e' He; discriminate He|].
      intros _ _ _. repeat split.
  - assert (Hbody : body w st = mkResult (Thrown e) st [Remote (GetDocs q) false]).
    { subst body. apply bind_thrown. unfold getDocs_i, await. rewrite Hq. reflexivity. }
    unfold try_finally, try_catch. rewrite Hbody. cbn.
    split; [exists false; reflexivity|].
    split; [reflexivity|].
    split; [intros docs Hd; discriminate Hd|].
    split; [intros _ _; repeat split|].
    intros docs Hd. discriminate Hd.
Qed.

Lemma fetch_invoices_outcomes_witness :
  Forall2 is_invoice_of stored_invoices
    (invoices (final (run (fetchInvoices (mkUser "op-1")) with_history initialHistory)))
  /\ render toLocaleDateString_enIN_UTC
       (final (run (fetchInvoices (mkUser "op-1")) offline
                   (mkHistoryState [sample_draft] false None EmptyString)))
     = ErrorBox "Failed to fetch invoice history.".
Proof.
  split.
  - destruct (fetch_invoices_outcomes toLocaleDateString_enIN_UTC with_history
                initialHistory (mkUser "op-1")) as (_ & _ & Hok & _).
    exact (proj1 (Hok stored_invoices eq_refl eq_refl)).
  - destruct (fetch_invoices_outcomes toLocaleDateString_enIN_UTC offline
                (mkHistoryState [sample_draft] false None EmptyString) (mkUser "op-1"))
      as (_ & _ & _ & Hrej & _).
    exact (proj2 (proj2 (Hrej "unavailable" eq_refl))).
Defined.

(** *** The search filter *)

Lemma lower_ascii_numeric (c : ascii) : is_numeric c = true -> lower_ascii c = c.
Proof.
  destruct c as [[] [] [] [] [] [] [] []]; intro H;
    first [reflexivity | discriminate H].
Qed.

Lemma eqb_lower_ascii_numeric (a c : ascii) :
  is_numeric c = true -> Ascii.eqb c (lower_ascii a) = Ascii.eqb c a.
Proof.
  intro H. unfold lower_ascii.
  destruct (is_upper a) eqn:Hup; [|reflexivity].
  destruct c as [[] [] [] [] [] [] [] []]; try discriminate H;
    clear H; destruct a as [[] [] [] [] [] [] [] []];
    try discriminate Hup; reflexivity.
Qed.

Lemma toLowerCase_numeric (s : string) : numeric_date s = true -> toLowerCase s = s.
Proof.
  unfold numeric_date.
  induction s as [|c s IH]; simpl; intro H.
  - reflexivity.
  - apply andb_true_iff in H as [Hc Hs].
    rewrite (lower_ascii_numeric c Hc), (IH Hs). reflexivity.
Qed.

Lemma startsWith_lower_numeric (s term : string) :
  numeric_date s = true ->
  startsWith s (toLowerCase term) = startsWith s term.
Proof.
  unfold numeric_date. revert s.
  induction term as [|b term IH]; intros s H.
  - destruct s; reflexivity.
  - destruct s as [|a s]; simpl.
    + reflexivity.
    + simpl in H. apply andb_true_iff in H as [Ha Hs].
      rewrite (eqb_lower_ascii_numeric b a Ha), (IH s Hs). reflexivity.
Qed.

Lemma includes_lower_numeric (s term : string) :
  numeric_date s = true ->
  includes s (toLowerCase term) = includes s term.
Proof.
  induction s as [|a s IH]; intro H.
  - cbn [includes]. apply startsWith_lower_numeric. exact H.
  - cbn [includes]. rewrite (startsWith_lower_numeric _ term H).
    unfold numeric_date in H. simpl in H. apply andb_true_iff in H as [_ Hs].
    rewrite (IH Hs). reflexivity.
Qed.

(** On a numeric date the comparison of the source, which does not fold
    the case of the term, is the case-insensitive one. *)
Lemma date_clause_case_insensitive (s term : string) :
  numeric_date s = true -> includes s term = contains_ci s term.
Proof.
  intro H. unfold contains_ci.
  rewrite (toLowerCase_numeric s H). symmetry.
  apply includes_lower_numeric. exact H.
Qed.

Lemma filter_none {A} (f : A -> bool) (l : list A) :
  (forall x, In x l -> f x = false) -> filter f l = [].
Proof.
  induction l as [|x l IH]; intro H; simpl.
  - reflexivity.
  - rewrite (H x (or_introl eq_refl)).
    apply IH. intros y Hy. apply H. right. exact Hy.
Qed.

Lemma filtered_as_specified (fmt : Date -> string) (fetched : list InvoiceData)
    (term : string) :
  forallb (fun inv => numeric_date (fmt (date inv))) fetched = true ->
  filteredInvoices fmt fetched term = filter (matches_search fmt term) fetched.
Proof.
  intro Hdates. unfold filteredInvoices, matches_search.
  apply filter_ext_in. intros inv Hin.
  rewrite forallb_forall in Hdates.
  rewrite (date_clause_case_insensitive _ term (Hdates inv Hin)).
  reflexivity.
Qed.

(** C7, the example as worded fails: "2023" occurs in the number of one
    invoice only, and the filter also keeps the other one, whose date is
    14/11/2023. *)
Lemma unique_number_selects_fails :
  map (fun inv => contains_ci (invoiceNumber inv) "2023") [invoice_b; invoice_a]
    = [false; true]
  /\ filteredInvoices toLocaleDateString_enIN_UTC [invoice_b; invoice_a] "2023"
     = [invoice_b; invoice_a]
  /\ ~ unique_number_selects toLocaleDateString_enIN_UTC
        [invoice_b; invoice_a] "2023" invoice_a.
Proof.
  split; [vm_compute; reflexivity|]. split; [vm_compute; reflexivity|].
  unfold unique_number_selects. intro Hclaim.
  assert (Hpre : exists before after,
             [invoice_b; invoice_a] = before ++ invoice_a :: after
             /\ contains_ci (invoiceNumber invoice_a) "2023" = true
             /\ forall other, In other (before ++ after) ->
                              contains_ci (invoiceNumber other) "2023" = false).
  { exists [invoice_b], []. split; [reflexivity|]. split; [reflexivity|].
    intros other [<- | []]. reflexivity. }
  specialize (Hclaim Hpre).
  vm_compute in Hclaim. discriminate Hclaim.
Qed.

(** C7, amended. Typing a search term issues no request and leaves the
    fetched list alone; the table then shows, in their order, exactly the
    fetched invoices whose number, customer name or formatted date
    contains the term, case ignored (the dates being numeric).  A term
    that occurs in the number of one invoice, and in no field of any
    other fetched invoice, selects exactly that invoice. *)
Theorem history_filter_outcomes
    (fmt : Date -> string) (fetched : list InvoiceData) (term : string)
    (Hdates : forallb (fun inv => numeric_date (fmt (date inv))) fetched = true) :
  filteredInvoices fmt fetched term = filter (matches_search fmt term) fetched
  /\ (forall inv, In inv (filteredInvoices fmt fetched term)
                  <-> In inv fetched /\ matches_search fmt term inv = true)
  /\ (forall w st,
        invoices st = fetched ->
        let r := run (onSearchChange term) w st in
        trace r = []
        /\ invoices (final r) = fetched
        /\ (h_loading st = false -> if_truthy (error st) = None ->
            render fmt (final r) = HistoryTable term (filter (matches_search fmt term) fetched)))
  /\ (forall before inv after,
        fetched = before ++ inv :: after ->
        contains_ci (invoiceNumber inv) term = true ->
        (forall other, In other (before ++ after) ->
                       matches_search fmt term other = false) ->
        filteredInvoices fmt fetched term = [inv]).
Proof.
  pose proof (filtered_as_specified fmt fetched term Hdates) as Hspec.
  split; [exact Hspec|].
  split; [intro inv; rewrite Hspec; apply filter_In|].
  split.
  - intros w st Hst r. subst r.
    unfold run, onSearchChange, setSearchTerm, update.
    cbn [final trace invoices].
    split; [reflexivity|]. split; [exact Hst|].
    intros Hload Herr. unfold render.
    cbn [h_loading error invoices searchTerm].
    rewrite Hload, Herr, Hst, Hspec. reflexivity.
  - intros before inv after Hsplit Hnum Hothers.
    rewrite Hspec, Hsplit, filter_app. cbn [filter].
    assert (Hinv : matches_search fmt term inv = true).
    { unfold matches_search. rewrite Hnum. reflexivity. }
    rewrite Hinv.
    rewrite (filter_none _ before), (filter_none _ after).
    + reflexivity.
    + intros x Hx. apply Hothers. apply in_or_app. right. exact Hx.
    + intros x Hx. apply Hothers. apply in_or_app. left. exact Hx.
Qed.

Lemma history_filter_outcomes_witness :
  filteredInvoices toLocaleDateString_enIN_UTC [invoice_b; invoice_a] "1692"
    = [invoice_a]
  /\ trace (run (onSearchChange "1692") offline
                (mkHistoryState [invoice_b; invoice_a] false None EmptyString)) = [].
Proof.
  assert (Hdates : forallb (fun inv => numeric_date (toLocaleDateString_enIN_UTC (date inv)))
                     [invoice_b; invoice_a] = true) by (vm_compute; reflexivity).
  destruct (history_filter_outcomes toLocaleDateString_enIN_UTC
              [invoice_b; invoice_a] "1692" Hdates) as (_ & _ & Hsearch & Hone).
  split.
  - apply (Hone [invoice_b] invoice_a []).
    + reflexivity.
    + vm_compute. reflexivity.
    + intros other [<- | []]. vm_compute. reflexivity.
  - exact (proj1 (Hsearch offline (mkHistoryState [invoice_b; invoice_a] false None EmptyString)
                    eq_refl)).
Defined.

(* ------------------------------------------------------------------ *)
(** * Further properties of the code *)

(* ------------------------------------------------------------------ *)
(** ** Searching the history and the catalog *)

Lemma startsWith_iff (s sub : string) :
  startsWith s sub = true <-> exists rest, s = (sub ++ rest)%string.
Proof.
  revert s. induction sub as [|b sub IH]; intro s.
  - split; [intros _; exists s; reflexivity | intros _; destruct s; reflexivity].
  - destruct s as [|a s]; simpl.
    + split; [discriminate | intros [rest H]; discriminate H].
    + rewrite andb_true_iff, Ascii.eqb_eq, IH. split.
      * intros [-> [rest ->]]. exists rest. reflexivity.
      * intros [rest H]. injection H as -> ->. split; [reflexivity | exists rest; reflexivity].
Qed.

Lemma includes_iff (s sub : string) :
  includes s sub = true
  <-> exists before after, s = (before ++ sub ++ after)%string.
Proof.
  induction s as [|a s IH].
  - cbn [includes]. rewrite startsWith_iff. split.
    + intros [rest H]. exists EmptyString, rest. exact H.
    + intros (before & after & H). destruct before; [|discriminate H].
      exists after. exact H.
  - cbn [includes]. rewrite orb_true_iff, startsWith_iff, IH. split.
    + intros [[rest H] | (before & after & H)].
      * exists EmptyString, rest. exact H.
      * exists (String a before), after. simpl. rewrite H. reflexivity.
    + intros (before & after & H). destruct before as [|b before].
      * left. exists after. exact H.
      * right. simpl in H. injection H as -> ->. exists before, after. reflexivity.
Qed.

Lemma string_app_assoc (a b c : string) :
  ((a ++ b) ++ c = a ++ (b ++ c))%string.
Proof.
  induction a as [|x a IH]; simpl; [reflexivity | rewrite IH; reflexivity].
Qed.

Lemma string_app_empty_r (a : string) : (a ++ EmptyString = a)%string.
Proof.
  induction a as [|x a IH]; simpl; [reflexivity | rewrite IH; reflexivity].
Qed.

Lemma includes_empty (s : string) : includes s EmptyString = true.
Proof.
  apply includes_iff. exists EmptyString, s. reflexivity.
Qed.

Lemma includes_refl (s : string) : includes s s = true.
Proof.
  apply includes_iff. exists EmptyString, EmptyString.
  simpl. rewrite string_app_empty_r. reflexivity.
Qed.

Lemma includes_trans (s t u : string) :
  includes s t = true -> includes t u = true -> includes s u = true.
Proof.
  rewrite !includes_iff.
  intros (b1 & a1 & ->) (b2 & a2 & ->).
  exists (b1 ++ b2)%string, (a2 ++ a1)%string.
  rewrite !string_app_assoc. reflexivity.
Qed.

Lemma toLowerCase_app (a b : string) :
  toLowerCase (a ++ b) = (toLowerCase a ++ toLowerCase b)%string.
Proof.
  induction a as [|x a IH]; simpl; [reflexivity | rewrite IH; reflexivity].
Qed.

Lemma includes_toLowerCase (t u : string) :
  includes t u = true -> includes (toLowerCase t) (toLowerCase u) = true.
Proof.
  rewrite !includes_iff. intros (b & a & ->).
  exists (toLowerCase b), (toLowerCase a).
  rewrite !toLowerCase_app. reflexivity.
Qed.

Lemma filter_all {A} (f : A -> bool) (l : list A) :
  (forall x, In x l -> f x = true) -> filter f l = l.
Proof.
  induction l as [|x l IH]; intro H; simpl.
  - reflexivity.
  - rewrite (H x (or_introl eq_refl)). f_equal.
    apply IH. intros y Hy. apply H. right. exact Hy.
Qed.

Lemma history_empty_term_rows (fmt : Date -> string) (fetched : list InvoiceData) :
  filteredInvoices fmt fetched EmptyString = fetched.
Proof.
  unfold filteredInvoices. apply filter_all. intros inv _.
  cbn [toLowerCase]. rewrite includes_empty. reflexivity.
Qed.

(** X1. An empty search term keeps every fetched invoice, in order. *)
Theorem history_empty_term_keeps_all
    (fmt : Date -> string) (fetched : list InvoiceData) :
  filteredInvoices fmt fetched EmptyString = fetched.
Proof.
  unfold filteredInvoices. apply filter_all. intros inv _.
  cbn [toLowerCase]. rewrite includes_empty. reflexivity.
Qed.

(** X2. Extending the search term never brings a row back.  For a new
    term of ASCII characters, on which [toLowerCase] works character by
    character, that contains the old term: filtering by the new term
    gives the same rows as filtering by it the rows the old term had
    kept, so every row it keeps the old term kept. *)
Theorem history_longer_term_narrows
    (fmt : Date -> string) (fetched : list InvoiceData) (term term' : string)
    (Hascii : ascii_text term' = true)
    (Hsub : includes term' term = true) :
  filteredInvoices fmt fetched term'
  = filteredInvoices fmt (filteredInvoices fmt fetched term) term'
  /\ (forall inv, In inv (filteredInvoices fmt fetched term') ->
                  In inv (filteredInvoices fmt fetched term)).
Proof.
  assert (Himp : forall inv,
             (includes (toLowerCase (invoiceNumber inv)) (toLowerCase term')
              || includes (toLowerCase (customerName inv)) (toLowerCase term')
              || includes (fmt (date inv)) term')%bool = true ->
             (includes (toLowerCase (invoiceNumber inv)) (toLowerCase term)
              || includes (toLowerCase (customerName inv)) (toLowerCase term)
              || includes (fmt (date inv)) term)%bool = true).
  { intros inv. rewrite !orb_true_iff.
    pose proof (includes_toLowerCase _ _ Hsub) as Hlow.
    intros [[H | H] | H].
    - left; left. exact (includes_trans _ _ _ H Hlow).
    - left; right. exact (includes_trans _ _ _ H Hlow).
    - right. exact (includes_trans _ _ _ H Hsub). }
  split.
  - unfold filteredInvoices.
    induction fetched as [|inv rest IH]; [reflexivity|].
    cbn [filter].
    destruct (includes (toLowerCase (invoiceNumber inv)) (toLowerCase term')
              || includes (toLowerCase (customerName inv)) (toLowerCase term')
              || includes (fmt (date inv)) term')%bool eqn:Hnew.
    + rewrite (Himp inv Hnew). cbn [filter]. rewrite Hnew, <- IH. reflexivity.
    + destruct (includes (toLowerCase (invoiceNumber inv)) (toLowerCase term)
                || includes (toLowerCase (customerName inv)) (toLowerCase term)
                || includes (fmt (date inv)) term)%bool.
      * cbn [filter]. rewrite Hnew. exact IH.
      * exact IH.
  - intros inv. unfold filteredInvoices. rewrite !filter_In.
    intros [Hin Hm]. split; [exact Hin | exact (Himp inv Hm)].
Qed.

Lemma history_longer_term_narrows_witness :
  filteredInvoices toLocaleDateString_enIN_UTC [invoice_b; invoice_a] "2023"
    = [invoice_b; invoice_a]
  /\ filteredInvoices toLocaleDateString_enIN_UTC [invoice_b; invoice_a] "8/2023"
     = filteredInvoices toLocaleDateString_enIN_UTC
         (filteredInvoices toLocaleDateString_enIN_UTC [invoice_b; invoice_a] "2023")
         "8/2023".
Proof.
  split; [vm_compute; reflexivity|].
  exact (proj1 (history_longer_term_narrows toLocaleDateString_enIN_UTC
                  [invoice_b; invoice_a] "2023" "8/2023" eq_refl eq_refl)).
Defined.

(** X3. A fetched invoice is always found by what its row displays: its
    whole invoice number or customer name, typed in any letter case, or
    its date exactly as formatted. *)
Theorem history_found_by_displayed_text
    (fmt : Date -> string) (fetched : list InvoiceData) (inv : InvoiceData)
    (term : string)
    (Hin : In inv fetched)
    (Hterm : toLowerCase term = toLowerCase (invoiceNumber inv)
             \/ toLowerCase term = toLowerCase (customerName inv)
             \/ term = fmt (date inv)) :
  In inv (filteredInvoices fmt fetched term).
Proof.
  unfold filteredInvoices. apply filter_In. split; [exact Hin|].
  rewrite !orb_true_iff.
  destruct Hterm as [H | [H | H]].
  - left; left. rewrite H. apply includes_refl.
  - left; right. rewrite H. apply includes_refl.
  - right. rewrite H. apply includes_refl.
Qed.

Lemma history_found_by_displayed_text_witness :
  In invoice_a
     (filteredInvoices toLocaleDateString_enIN_UTC [invoice_b; invoice_a] "ASHA").
Proof.
  apply (history_found_by_displayed_text toLocaleDateString_enIN_UTC
           [invoice_b; invoice_a] invoice_a "ASHA").
  - right. left. reflexivity.
  - right. left. reflexivity.
Defined.

(* ------------------------------------------------------------------ *)
(** ** The catalog under add and delete *)

(** The catalog after a run of [handleDeleteProduct]: as it was, or
    without the entries of the code. *)
Lemma delete_product_catalog (w : World) (st : AppState) (id : Z) (docId : option string) :
  products (final (run (handleDeleteProduct id docId) w st)) = products st
  \/ products (final (run (handleDeleteProduct id docId) w st))
     = without_id id (products st).
Proof.
  destruct (resolved_ref (products st) id docId) as [ref|] eqn:Hres.
  - rewrite (delete_run_resolved w st id docId ref Hres).
    destruct (deleteDoc_settles w "products" ref); [right | left]; reflexivity.
  - rewrite (delete_run_unresolved w st id docId Hres). right. reflexivity.
Qed.


Lemma StronglySorted_map_filter {A B} (R : B -> B -> Prop) (f : A -> B)
    (g : A -> bool) (l : list A) :
  StronglySorted R (map f l) -> StronglySorted R (map f (filter g l)).
Proof.
  induction l as [|x l IH]; simpl; intro H.
  - constructor.
  - apply StronglySorted_inv in H as [Hs Hall].
    destruct (g x); simpl; [|apply IH; exact Hs].
    constructor; [apply IH; exact Hs|].
    rewrite Forall_forall in *. intros y Hy. apply Hall.
    apply in_map_iff in Hy as (z & Hz & Hzin).
    apply filter_In in Hzin as [Hzin _].
    apply in_map_iff. exists z. split; assumption.
Qed.

Lemma StronglySorted_snoc {B} (R : B -> B -> Prop) (l : list B) (y : B) :
  StronglySorted R l -> (forall x, In x l -> R x y) -> StronglySorted R (l ++ [y]).
Proof.
  induction l as [|x l IH]; simpl; intros Hs Hall.
  - constructor; constructor.
  - apply StronglySorted_inv in Hs as [Hs Hx].
    constructor.
    + apply IH; [exact Hs|]. intros z Hz. apply Hall. right. exact Hz.
    + apply Forall_app. split; [exact Hx|].
      constructor; [|constructor]. apply Hall. left. reflexivity.
Qed.

Lemma ids_not_above_next (ps : list Product) (x : Z) :
  In x (map p_id ps) -> x <= Number_succ (max_id_or_0 ps).
Proof.
  intro Hin. apply in_map_iff in Hin as (p & <- & Hp).
  pose proof (max_id_or_0_upper ps p Hp).
  pose proof (Number_succ_ge (max_id_or_0 ps)). lia.
Qed.




(** X5. A catalog in ascending order of product code, as it is loaded,
    stays in ascending order under [handleAddProduct] and
    [handleDeleteProduct]: the new product, whose code is not below any
    other, goes last, and a deletion keeps the order of what remains. *)
Theorem catalog_stays_ascending
    (w : World) (st : AppState)
    (Hasc : StronglySorted Z.le (map p_id (products st))) :
  (forall name price,
      StronglySorted Z.le
        (map p_id (products (final (run (handleAddProduct name price) w st)))))
  /\ (forall id docId,
      StronglySorted Z.le
        (map p_id (products (final (run (handleDeleteProduct id docId) w st))))).
Proof.
  split.
  - intros name price. rewrite add_product_run.
    destruct (addDoc_settles w "products" _) as [docRef|e]; cbn [final products].
    + rewrite map_app. cbn [map p_id].
      apply StronglySorted_snoc; [exact Hasc|].
      intros x Hx. exact (ids_not_above_next _ _ Hx).
    + exact Hasc.
  - intros id docId.
    destruct (delete_product_catalog w st id docId) as [-> | ->].
    + exact Hasc.
    + apply StronglySorted_map_filter. exact Hasc.
Qed.

Lemma catalog_stays_ascending_witness :
  StronglySorted Z.le
    (map p_id (products (final (run (handleAddProduct "Sesame Oil 500ml" 180%float)
                                     online (logged_in "op-1" three_products))))).
Proof.
  assert (Hasc : StronglySorted Z.le (map p_id (products (logged_in "op-1" three_products)))).
  { cbn. repeat constructor; lia. }
  apply (proj1 (catalog_stays_ascending online (logged_in "op-1" three_products) Hasc)).
Defined.

Lemma without_new_id (ps : list Product) (p : Product) :
  (forall q, In q ps -> p_id q < p_id p) ->
  without_id (p_id p) (ps ++ [p]) = ps.
Proof.
  intro Hlt. unfold without_id. rewrite filter_app. cbn [filter].
  rewrite Z.eqb_refl. cbn [negb]. rewrite app_nil_r.
  apply filter_all. intros q Hq.
  apply negb_true_iff, Z.eqb_neq. specialize (Hlt q Hq). lia.
Qed.

(** X6. While the codes are below 2^53, adding a product and then
    deleting it restores the catalog: after an accepted add, a delete of
    the new code with the new document id that is not rejected leaves
    exactly the products there were before; and the document it deletes
    is the one the add created. *)
Theorem add_then_delete_restores
    (w w' : World) (st : AppState) (name : string) (price : float) (docRef : string)
    (Hsafe : max_id_or_0 (products st) < 2 ^ 53)
    (Hadd : addDoc_settles w "products"
              (ProductFields (1 + max_id_or_0 (products st)) name price)
            = Fulfilled docRef)
    (Hdel : deleteDoc_settles w' "products" docRef = Fulfilled tt) :
  let added := final (run (handleAddProduct name price) w st) in
  let r := run (handleDeleteProduct (1 + max_id_or_0 (products st)) (Some docRef)) w' added in
  products added
  = products st ++ [mkProduct (1 + max_id_or_0 (products st)) name price (Some docRef)]
  /\ products (final r) = products st
  /\ remote_calls (trace r)
     = (if truthy (Some docRef)
        then [Remote (DeleteDoc "products" docRef) true] else []).
Proof.
  intros added r. subst r added.
  assert (Hnext : Number_succ (max_id_or_0 (products st))
                  = 1 + max_id_or_0 (products st)).
  { rewrite (Number_succ_exact _ Hsafe). lia. }
  rewrite add_product_run, Hnext, Hadd. cbn [final products].
  set (new := mkProduct (1 + max_id_or_0 (products st)) name price (Some docRef)).
  set (st1 := mkAppState _ _ _ _ (products st ++ [new])).
  assert (Hlt : forall q, In q (products st) -> p_id q < p_id new).
  { intros q Hq. unfold new. cbn [p_id].
    pose proof (max_id_or_0_upper _ _ Hq). lia. }
  split; [reflexivity|].
  destruct (truthy (Some docRef)) eqn:Htr.
  - assert (Hres : resolved_ref (products st1) (1 + max_id_or_0 (products st)) (Some docRef)
                   = Some docRef).
    { unfold resolved_ref, if_truthy. rewrite Htr. reflexivity. }
    rewrite (delete_run_resolved w' st1 _ _ docRef Hres), Hdel.
    cbn [final products trace remote_calls filter is_remote].
    split; [|reflexivity].
    subst st1. cbn [products]. apply (without_new_id (products st) new Hlt).
  - assert (Hres : resolved_ref (products st1) (1 + max_id_or_0 (products st)) (Some docRef)
                   = None).
    { unfold resolved_ref, if_truthy. rewrite Htr.
      rewrite find_product_absent; [reflexivity|].
      intros p Hp. subst st1. cbn [products] in Hp.
      apply in_app_or in Hp as [Hp | [<- | []]].
      - specialize (Hlt p Hp). unfold new in Hlt. cbn [p_id] in Hlt.
        destruct (Z.eqb_spec (p_id p) (1 + max_id_or_0 (products st))); [lia | reflexivity].
      - cbn [p_id p_docId new]. rewrite Htr. apply andb_false_r. }
    rewrite (delete_run_unresolved w' st1 _ _ Hres).
    cbn [final products trace remote_calls filter].
    split; [|reflexivity].
    subst st1. cbn [products]. apply (without_new_id (products st) new Hlt).
Qed.

Lemma add_then_delete_restores_witness :
  products (final (run (handleDeleteProduct 4 (Some "doc-1")) online
                       (final (run (handleAddProduct "Sesame Oil 500ml" 180%float) online
                                   (logged_in "op-1" three_products)))))
  = three_products.
Proof.
  exact (proj1 (proj2 (add_then_delete_restores online online
                         (logged_in "op-1" three_products)
                         "Sesame Oil 500ml" 180%float "doc-1" eq_refl eq_refl eq_refl))).
Defined.

Lemma max_id_or_0_app (ps qs : list Product) :
  max_id_or_0 (ps ++ qs) = Z.max (max_id_or_0 ps) (max_id_or_0 qs).
Proof.
  unfold max_id_or_0. induction ps as [|p ps IH]; simpl.
  - pose proof (max_id_or_0_nonneg qs) as H. unfold max_id_or_0 in H. lia.
  - rewrite IH. lia.
Qed.

(** X7. While the codes stay below 2^53, two accepted adds, the second
    made once the first has settled, take consecutive product codes, and
    the two products end the catalog in the order they were added. *)
Theorem two_adds_take_consecutive_codes
    (w w' : World) (st : AppState)
    (name name' : string) (price price' : float) (docRef docRef' : string)
    (Hsafe : max_id_or_0 (products st) + 1 < 2 ^ 53)
    (Hfirst : addDoc_settles w "products"
                (ProductFields (1 + max_id_or_0 (products st)) name price)
              = Fulfilled docRef)
    (Hsecond : addDoc_settles w' "products"
                 (ProductFields (2 + max_id_or_0 (products st)) name' price')
               = Fulfilled docRef') :
  products (final (run (handleAddProduct name' price') w'
                       (final (run (handleAddProduct name price) w st))))
  = products st
    ++ [ mkProduct (1 + max_id_or_0 (products st)) name price (Some docRef);
         mkProduct (2 + max_id_or_0 (products st)) name' price' (Some docRef') ].
Proof.
  assert (Hone : Number_succ (max_id_or_0 (products st))
                 = 1 + max_id_or_0 (products st)).
  { rewrite Number_succ_exact by lia. lia. }
  rewrite (add_product_run w st), Hone, Hfirst. cbn [final].
  rewrite add_product_run. cbn [products].
  assert (Hmax : max_id_or_0
                   (products st
                    ++ [mkProduct (1 + max_id_or_0 (products st)) name price
                          (Some docRef)])
                 = 1 + max_id_or_0 (products st)).
  { rewrite max_id_or_0_app. unfold max_id_or_0 at 2. cbn [map fold_right p_id].
    pose proof (max_id_or_0_nonneg (products st)). lia. }
  assert (Htwo : Number_succ (1 + max_id_or_0 (products st))
                 = 2 + max_id_or_0 (products st)).
  { rewrite Number_succ_exact by lia. lia. }
  rewrite Hmax, Htwo, Hsecond. cbn [final products].
  rewrite <- app_assoc. reflexivity.
Qed.

Lemma two_adds_take_consecutive_codes_witness :
  map p_id
    (products (final (run (handleAddProduct "Castor Oil 1L" 150%float) online
                          (final (run (handleAddProduct "Sesame Oil 500ml" 180%float) online
                                      (logged_in "op-1" three_products))))))
  = [1; 2; 3; 4; 5].
Proof.
  rewrite (two_adds_take_consecutive_codes online online
             (logged_in "op-1" three_products)
             "Sesame Oil 500ml" "Castor Oil 1L" 180%float 150%float "doc-1" "doc-1"
             eq_refl eq_refl eq_refl).
  reflexivity.
Defined.

Lemma without_absent_id (id : Z) (ps : list Product) :
  (forall p, In p ps -> p_id p <> id) -> without_id id ps = ps.
Proof.
  intro Habs. unfold without_id. apply filter_all.
  intros p Hp. apply negb_true_iff, Z.eqb_neq. exact (Habs p Hp).
Qed.

Lemma delete_absent_run (w : World) (st : AppState) (id : Z) :
  (forall p, In p (products st) -> p_id p <> id) ->
  run (handleDeleteProduct id None) w st = mkResult (Normal tt) st [].
Proof.
  intro Habs.
  assert (Hres : resolved_ref (products st) id None = None).
  { unfold resolved_ref. cbn [if_truthy truthy].
    rewrite find_product_absent; [reflexivity|].
    intros p Hp. apply andb_false_iff. left.
    apply Z.eqb_neq. exact (Habs p Hp). }
  rewrite (delete_run_unresolved w st id None Hres).
  rewrite (without_absent_id id (products st) Habs).
  destruct st; reflexivity.
Qed.

(** X8. [handleDeleteProduct] called without a [docId] for a code that no
    catalog entry has does nothing at all: no request, no alert, the
    state as it was.  So a delete that went through can be repeated
    without effect. *)
Theorem delete_absent_code_is_noop (w w' : World) (st : AppState) (id : Z) :
  ((forall p, In p (products st) -> p_id p <> id) ->
   run (handleDeleteProduct id None) w st = mkResult (Normal tt) st [])
  /\ (forall docId,
        let r := run (handleDeleteProduct id docId) w st in
        products (final r) = without_id id (products st) ->
        run (handleDeleteProduct id None) w' (final r)
        = mkResult (Normal tt) (final r) []).
Proof.
  split.
  - apply delete_absent_run.
  - intros docId r Hgone. apply delete_absent_run.
    intros p Hp. rewrite Hgone in Hp.
    apply in_without_id in Hp as [_ Hne]. exact Hne.
Qed.

Lemma delete_absent_code_is_noop_witness :
  run (handleDeleteProduct 7 None) offline (logged_in "op-1" three_products)
  = mkResult (Normal tt) (logged_in "op-1" three_products) [].
Proof.
  apply (proj1 (delete_absent_code_is_noop offline offline
                  (logged_in "op-1" three_products) 7)).
  cbn. intros p [<- | [<- | [<- | []]]]; cbn; discriminate.
Defined.

(** X9. One run of [handleDeleteProduct] issues at most one remote delete,
    however many catalog entries have the code; unless that request is
    rejected, every entry of the code is gone from the catalog
    afterwards, also those whose own document was never deleted. *)
Theorem delete_issues_at_most_one_request
    (w : World) (st : AppState) (id : Z) (docId : option string) :
  let r := run (handleDeleteProduct id docId) w st in
  (List.length (remote_calls (trace r)) <= 1)%nat
  /\ ((forall rq, ~ In (Remote rq false) (trace r)) ->
      forall p, In p (products (final r)) -> p_id p <> id).
Proof.
  intro r. subst r.
  destruct (resolved_ref (products st) id docId) as [ref|] eqn:Hres.
  - rewrite (delete_run_resolved w st id docId ref Hres).
    destruct (deleteDoc_settles w "products" ref) as [[]|e].
    + cbn [trace final products remote_calls filter is_remote List.length].
      split; [lia|]. intros _ p Hp.
      apply in_without_id in Hp as [_ Hne]. exact Hne.
    + cbn [trace final products remote_calls filter is_remote List.length].
      split; [lia|]. intros Hno. exfalso.
      apply (Hno (DeleteDoc "products" ref)). left. reflexivity.
  - rewrite (delete_run_unresolved w st id docId Hres).
    cbn [trace final products remote_calls filter List.length].
    split; [lia|]. intros _ p Hp.
    apply in_without_id in Hp as [_ Hne]. exact Hne.
Qed.

Lemma delete_issues_at_most_one_request_witness :
  trace (run (handleDeleteProduct 5 None) online (logged_in "op-1" twin_products))
    = [Remote (DeleteDoc "products" "doc-a") true]
  /\ forall p,
       In p (products (final (run (handleDeleteProduct 5 None) online
                                  (logged_in "op-1" twin_products)))) ->
       p_id p <> 5.
Proof.
  split; [reflexivity|].
  apply (proj2 (delete_issues_at_most_one_request online
                  (logged_in "op-1" twin_products) 5 None)).
  intros rq [H | []]. discriminate H.
Defined.

(* ------------------------------------------------------------------ *)
(** ** More on the invoice lifecycle and on what the App shows *)

Lemma save_invoice_unauthorized_run
    (w : World) (st : AppState) (invoiceData : InvoiceData) :
  user st = None ->
  run (handleSaveInvoice invoiceData) w st
  = mkResult (Normal None) st [Alert "You must be logged in to save a bill."].
Proof.
  intro Hu. unfold run, handleSaveInvoice, bind, read, alert, emit, ret.
  cbn. rewrite Hu. reflexivity.
Qed.

(** X10. Without an operator identity [handleSaveInvoice] only reports
    that a login is required and answers nothing: no write is issued and
    the component state, hence the draft, is as it was. *)
Theorem save_invoice_unauthorized
    (w : World) (st : AppState) (invoiceData : InvoiceData)
    (Hu : user st = None) :
  run (handleSaveInvoice invoiceData) w st
  = mkResult (Normal None) st [Alert "You must be logged in to save a bill."].
Proof.
  exact (save_invoice_unauthorized_run w st invoiceData Hu).
Qed.

Lemma save_invoice_unauthorized_witness :
  run (handleSaveInvoice sample_draft) online
      (with_draft sample_draft (logged_out [groundnut_oil]))
  = mkResult (Normal None) (with_draft sample_draft (logged_out [groundnut_oil]))
      [Alert "You must be logged in to save a bill."].
Proof.
  exact (save_invoice_unauthorized online
           (with_draft sample_draft (logged_out [groundnut_oil])) sample_draft eq_refl).
Defined.

Lemma Z_to_string_inj (a b : Z) : Z_to_string a = Z_to_string b -> a = b.
Proof.
  unfold Z_to_string. intro H.
  apply DecimalZ.to_int_inj.
  pose proof (NilEmpty.isi (Z.to_int a)) as Ha.
  pose proof (NilEmpty.isi (Z.to_int b)) as Hb.
  rewrite H in Ha. rewrite Ha in Hb. injection Hb as Hb. exact Hb.
Qed.

Lemma string_app_inv_head (p a b : string) : (p ++ a = p ++ b)%string -> a = b.
Proof.
  induction p as [|c p IH]; simpl; intro H; [exact H|].
  injection H as H. exact (IH H).
Qed.

Lemma generate_bill_run
    (GST_RATE : float) (w : World) (st : AppState) (u : User)
    (cName cPhone : string) (billItems : list BillItem) :
  user st = Some u ->
  exists inv,
    run (handleGenerateBill GST_RATE cName cPhone billItems) w st
    = mkResult (Normal tt)
        (mkAppState (user st) (loading st) (view st) (Some inv) (products st)) []
    /\ invoiceNumber inv = ("BSMOM-" ++ Z_to_string (Date_now w))%string
    /\ date inv = new_Date w
    /\ i_id inv = None
    /\ userId inv = uid u
    /\ customerName inv = cName
    /\ items inv = billItems.
Proof.
  intro Hu. destruct st as [us ld vw ci ps]. cbn in Hu. subst us.
  unfold run, handleGenerateBill, bind, read, ask, setCurrentInvoice, update.
  cbn.
  eexists. split; [reflexivity|]. cbn. repeat split.
Qed.

(** X11. The invoice number of a draft is ["BSMOM-"] followed by the
    decimal clock reading of its generation: two drafts have the same
    number exactly when they were generated at the same millisecond,
    whoever generated them and whatever they hold. *)
Theorem invoice_numbers_follow_the_clock
    (rate rate' : float) (w w' : World) (st st' : AppState) (u u' : User)
    (name phone name' phone' : string) (billItems billItems' : list BillItem)
    (inv inv' : InvoiceData)
    (Hu : user st = Some u) (Hu' : user st' = Some u')
    (Hinv : currentInvoice (final (run (handleGenerateBill rate name phone billItems) w st))
            = Some inv)
    (Hinv' : currentInvoice
               (final (run (handleGenerateBill rate' name' phone' billItems') w' st'))
             = Some inv') :
  invoiceNumber inv = ("BSMOM-" ++ Z_to_string (Date_now w))%string
  /\ (invoiceNumber inv = invoiceNumber inv' <-> Date_now w = Date_now w').
Proof.
  destruct (generate_bill_run rate w st u name phone billItems Hu)
    as (d & Hrun & Hnum & _).
  destruct (generate_bill_run rate' w' st' u' name' phone' billItems' Hu')
    as (d' & Hrun' & Hnum' & _).
  rewrite Hrun in Hinv. rewrite Hrun' in Hinv'.
  cbn [final currentInvoice] in Hinv, Hinv'.
  injection Hinv as <-. injection Hinv' as <-.
  split; [exact Hnum|].
  rewrite Hnum, Hnum'. split.
  - intro H. apply string_app_inv_head in H. apply Z_to_string_inj. exact H.
  - intros ->. reflexivity.
Qed.

Lemma invoice_numbers_follow_the_clock_witness :
  invoiceNumber sample_draft <> invoiceNumber later_draft.
Proof.
  intro Heq.
  destruct (invoice_numbers_follow_the_clock rate_5_percent rate_5_percent
              online a_millisecond_later
              (logged_in "op-1" [groundnut_oil]) (logged_in "op-1" [groundnut_oil])
              (mkUser "op-1") (mkUser "op-1")
              "Asha" "9876543210" "Asha" "9876543210"
              [mkBillItem groundnut_oil 3%float None]
              [mkBillItem groundnut_oil 3%float None]
              sample_draft later_draft eq_refl eq_refl eq_refl eq_refl) as [_ Hiff].
  apply Hiff in Heq. discriminate Heq.
Defined.

(** X12. Generating a bill replaces the draft and nothing else: the state
    reached does not depend on the invoice that was current before, so
    generating again with the same input at the same clock reading gives
    the state of the first generation; no request is issued either
    time. *)
Theorem regenerate_replaces_the_draft
    (GST_RATE : float) (w : World) (st : AppState) (u : User)
    (customerName customerPhone : string) (billItems : list BillItem)
    (Hu : user st = Some u) :
  let gen := handleGenerateBill GST_RATE customerName customerPhone billItems in
  (forall previous,
      final (run gen w (mkAppState (user st) (loading st) (view st) previous (products st)))
      = final (run gen w st))
  /\ run gen w (final (run gen w st))
     = mkResult (Normal tt) (final (run gen w st)) []
  /\ trace (run gen w st) = [].
Proof.
  intro gen. subst gen.
  destruct (generate_bill_run GST_RATE w st u customerName customerPhone billItems Hu)
    as (inv & Hrun & _).
  assert (Hany : forall previous,
             run (handleGenerateBill GST_RATE customerName customerPhone billItems) w
                 (mkAppState (user st) (loading st) (view st) previous (products st))
             = mkResult (Normal tt)
                 (mkAppState (user st) (loading st) (view st) (Some inv) (products st)) []).
  { intro previous. rewrite <- Hrun.
    destruct st as [us ld vw ci ps]. cbn in Hu. subst us.
    unfold run, handleGenerateBill, bind, read, ask, setCurrentInvoice, update.
    cbn. reflexivity. }
  split; [|split].
  - intro previous. rewrite Hany, Hrun. reflexivity.
  - rewrite Hrun. cbn [final]. apply Hany.
  - rewrite Hrun. reflexivity.
Qed.

Lemma regenerate_replaces_the_draft_witness :
  final (run (handleGenerateBill rate_5_percent "Asha" "9876543210"
                [mkBillItem groundnut_oil 3%float None])
             online (with_draft sample_draft (logged_in "op-1" [groundnut_oil])))
  = final (run (handleGenerateBill rate_5_percent "Asha" "9876543210"
                  [mkBillItem groundnut_oil 3%float None])
               online (logged_in "op-1" [groundnut_oil])).
Proof.
  exact (proj1 (regenerate_replaces_the_draft rate_5_percent online
                  (logged_in "op-1" [groundnut_oil]) (mkUser "op-1")
                  "Asha" "9876543210" [mkBillItem groundnut_oil 3%float None] eq_refl)
               (Some sample_draft)).
Defined.

(** X13. What the App shows around an identity change: the loading notice
    until the listener has fired; after it reports a user, the billing
    form over the catalog as it stands, whatever was open before; after
    it reports none, the login screen. *)
Theorem screens_after_auth_change
    (PRODUCTS : list Product) (w : World) (st : AppState) (u : User) :
  App_main (initialState PRODUCTS) = LoadingScreen
  /\ App_main (final (run (onAuthStateChanged (Some u)) w st))
     = BillingFormScreen (products st)
  /\ App_main (final (run (onAuthStateChanged None) w st)) = AuthScreen.
Proof.
  repeat split.
Qed.

(** X14. Navigation of a logged-in operator: [switchView] shows the page of
    the view asked for, closing any open invoice; [handleViewInvoice]
    shows exactly the invoice it is given, with the back button named
    after the view underneath; [handleBack] then shows that view's page
    again, in the state that held before the invoice was opened. *)
Theorem navigation_screens
    (w : World) (st : AppState) (u : User)
    (Hu : user st = Some u) (Hloaded : loading st = false) :
  (forall v,
      App_main (final (run (switchView v) w st))
      = match v with
        | ViewForm => BillingFormScreen (products st)
        | ViewProducts => ProductManagerScreen (products st)
        | ViewHistory => BillHistoryScreen u
        end)
  /\ (forall invoice,
        App_main (final (run (handleViewInvoice invoice) w st))
        = InvoiceScreen invoice
            (match view st with
             | ViewHistory => "Back to History"
             | _ => "Create New Bill"
             end))
  /\ (forall invoice,
        currentInvoice st = None ->
        final (run handleBack w (final (run (handleViewInvoice invoice) w st))) = st).
Proof.
  destruct st as [us ld vw ci ps]. cbn in Hu, Hloaded. subst us ld.
  split; [|split].
  - intros []; reflexivity.
  - intro invoice. destruct vw; reflexivity.
  - intros invoice Hnone. cbn in Hnone. subst ci. reflexivity.
Qed.

Lemma navigation_screens_witness :
  App_main (final (run (handleViewInvoice invoice_a) online
                       (mkAppState (Some (mkUser "op-1")) false ViewHistory None
                          three_products)))
  = InvoiceScreen invoice_a "Back to History".
Proof.
  exact (proj1 (proj2 (navigation_screens online
                         (mkAppState (Some (mkUser "op-1")) false ViewHistory None
                            three_products)
                         (mkUser "op-1") eq_refl eq_refl)) invoice_a).
Defined.

(* ------------------------------------------------------------------ *)
(** ** The product form and the catalog search *)

(** A finite number that is not [<= 0] is positive. *)
Lemma positive_of_guard (x : float) :
  Number_isFinite x = true -> (x <=? 0)%float = false -> (0 <? x)%float = true.
Proof.
  unfold Number_isFinite, is_finite, is_nan.
  rewrite eqb_spec, leb_spec, ltb_spec.
  change (Prim2SF 0) with (S754_zero false).
  destruct (Prim2SF x) as [s | s | | s m e]; cbn.
  - intros _ H. discriminate H.
  - destruct s; intros _ H; [discriminate H | reflexivity].
  - intro H. discriminate H.
  - destruct s; intros _ H; [discriminate H | reflexivity].
Qed.

(** X15. The product form refuses bad input locally: when the name is
    empty after trimming, or the price does not parse to a finite number
    above 0, the [onAddProduct] callback is not called whatever it is, so
    nothing is requested and the catalog is untouched; the fields keep
    what was typed and the error names the fault, the name first. *)
Theorem product_form_rejects_locally
    (parseFloat : string -> float) (trim : string -> string)
    (onAddProduct : string -> float -> M AppState unit)
    (w : World) (form : ProductManagerState) (st : AppState)
    (Hbad : truthy_string (trim (newProdName form)) = false
            \/ Number_isFinite (parseFloat (newProdPrice form)) = false
            \/ (parseFloat (newProdPrice form) <=? 0)%float = true) :
  run (ProductManager.handleAddProduct parseFloat trim onAddProduct) w (form, st)
  = mkResult (Normal tt)
      (mkProductManagerState (newProdName form) (newProdPrice form)
         (Some (if truthy_string (trim (newProdName form))
                then "Enter a valid price greater than 0."
                else "Product name is required."))
         (pm_searchTerm form),
       st)
      [].
Proof.
  unfold run, ProductManager.handleAddProduct, bind, in_child, read.
  cbn [outcome final trace fst snd app].
  destruct (truthy_string (trim (newProdName form))) eqn:Hname; cbn [negb].
  - destruct Hbad as [H | Hbad]; [discriminate H|].
    assert (Hguard : (negb (Number_isFinite (parseFloat (newProdPrice form)))
                      || (parseFloat (newProdPrice form) <=? 0)%float)%bool = true).
    { destruct Hbad as [-> | ->]; [reflexivity | apply orb_true_r]. }
    rewrite Hguard. reflexivity.
  - reflexivity.
Qed.

Lemma product_form_rejects_locally_witness :
  run (ProductManager.handleAddProduct (fun _ => 180%float) (fun s => s) handleAddProduct)
      online (form_with EmptyString "180", logged_in "op-1" three_products)
  = mkResult (Normal tt)
      (mkProductManagerState EmptyString "180" (Some "Product name is required.")
         EmptyString,
       logged_in "op-1" three_products)
      [].
Proof.
  apply (product_form_rejects_locally (fun _ => 180%float) (fun s => s)
           handleAddProduct online
           (form_with EmptyString "180") (logged_in "op-1" three_products)).
  left. reflexivity.
Defined.

Lemma product_form_valid_run
    (parseFloat : string -> float) (trim : string -> string)
    (onAddProduct : string -> float -> M AppState unit)
    (w : World) (form : ProductManagerState) (st : AppState) :
  truthy_string (trim (newProdName form)) = true ->
  Number_isFinite (parseFloat (newProdPrice form)) = true ->
  (parseFloat (newProdPrice form) <=? 0)%float = false ->
  run (ProductManager.handleAddProduct parseFloat trim onAddProduct) w (form, st)
  = match outcome (onAddProduct (trim (newProdName form))
                     (parseFloat (newProdPrice form)) w st) with
    | Normal _ =>
        mkResult (Normal tt)
          (mkProductManagerState EmptyString EmptyString None (pm_searchTerm form),
           final (onAddProduct (trim (newProdName form))
                    (parseFloat (newProdPrice form)) w st))
          (trace (onAddProduct (trim (newProdName form))
                    (parseFloat (newProdPrice form)) w st))
    | Thrown e =>
        mkResult (Thrown e)
          (form,
           final (onAddProduct (trim (newProdName form))
                    (parseFloat (newProdPrice form)) w st))
          (trace (onAddProduct (trim (newProdName form))
                    (parseFloat (newProdPrice form)) w st))
    end.
Proof.
  intros Hname Hfinite Hpos.
  unfold run, ProductManager.handleAddProduct, bind, in_child, call_prop, read.
  cbn [outcome final trace fst snd app].
  rewrite Hname, Hfinite, Hpos. cbn [negb orb].
  cbn [outcome final trace fst snd app].
  destruct (onAddProduct (trim (newProdName form)) (parseFloat (newProdPrice form)) w st)
    as [[a|e] s t]; cbn.
  - rewrite app_nil_r. reflexivity.
  - reflexivity.
Qed.

(** X16. When the form accepts its input it hands [handleAddProduct] the
    trimmed name and the parsed price: the name is not empty, the price
    is above 0, and the one request issued is the create of that product
    under the code [handleAddProduct] computes.  The fields are emptied
    and the error cleared whether or not the create succeeds. *)
Theorem product_form_submits_valid_product
    (parseFloat : string -> float) (trim : string -> string)
    (w : World) (form : ProductManagerState) (st : AppState)
    (Hname : truthy_string (trim (newProdName form)) = true)
    (Hfinite : Number_isFinite (parseFloat (newProdPrice form)) = true)
    (Hpos : (parseFloat (newProdPrice form) <=? 0)%float = false) :
  let name := trim (newProdName form) in
  let price := parseFloat (newProdPrice form) in
  let r := run (ProductManager.handleAddProduct parseFloat trim handleAddProduct)
               w (form, st) in
  fst (final r) = mkProductManagerState EmptyString EmptyString None (pm_searchTerm form)
  /\ snd (final r) = final (run (handleAddProduct name price) w st)
  /\ (exists ok,
        remote_calls (trace r)
        = [Remote (AddDoc "products"
                     (ProductFields (Number_succ (max_id_or_0 (products st))) name price))
             ok])
  /\ name <> EmptyString
  /\ (0 <? price)%float = true.
Proof.
  intros name price r. subst r name price.
  rewrite (product_form_valid_run parseFloat trim handleAddProduct w form st
             Hname Hfinite Hpos).
  pose proof (add_product_run w st (trim (newProdName form))
                (parseFloat (newProdPrice form))) as Hrun.
  unfold run in Hrun. unfold run. rewrite Hrun.
  split; [|split; [|split; [|split]]].
  - destruct (addDoc_settles w "products" _); reflexivity.
  - destruct (addDoc_settles w "products" _); reflexivity.
  - destruct (addDoc_settles w "products" _); [exists true | exists false]; reflexivity.
  - intro H. rewrite H in Hname. discriminate Hname.
  - apply positive_of_guard; assumption.
Qed.

Lemma product_form_submits_valid_product_witness :
  fst (final (run (ProductManager.handleAddProduct (fun _ => 180%float) (fun s => s)
                     handleAddProduct)
                  offline
                  (form_with "Sesame Oil 500ml" "180", logged_in "op-1" three_products)))
  = form_with EmptyString EmptyString
  /\ products (snd (final (run (ProductManager.handleAddProduct (fun _ => 180%float)
                                  (fun s => s) handleAddProduct)
                               online
                               (form_with "Sesame Oil 500ml" "180",
                                logged_in "op-1" three_products))))
     = three_products ++ [mkProduct 4 "Sesame Oil 500ml" 180%float (Some "doc-1")].
Proof.
  split.
  - exact (proj1 (product_form_submits_valid_product (fun _ => 180%float) (fun s => s)
                    offline (form_with "Sesame Oil 500ml" "180")
                    (logged_in "op-1" three_products) eq_refl eq_refl eq_refl)).
  - destruct (product_form_submits_valid_product (fun _ => 180%float) (fun s => s) online
                (form_with "Sesame Oil 500ml" "180")
                (logged_in "op-1" three_products) eq_refl eq_refl eq_refl)
      as (_ & Hsnd & _).
    rewrite Hsnd. reflexivity.
Defined.

(** X17. The delete button of a product row: if the operator declines the
    confirmation nothing happens; if the operator confirms, the row's own
    document is the one deleted remotely, also when other entries share
    its code, and unless that fails no entry of the code remains. *)
Theorem product_row_delete
    (w : World) (form : ProductManagerState) (st : AppState)
    (p : Product) (ref : string)
    (Hdoc : p_docId p = Some ref) (Href : ref <> EmptyString) :
  (forall onDeleteProduct,
      run (ProductManager.handleDeleteProduct onDeleteProduct false (p_id p) (p_docId p))
          w (form, st)
      = mkResult (Normal tt) (form, st) [])
  /\ (let r := run (ProductManager.handleDeleteProduct handleDeleteProduct true
                      (p_id p) (p_docId p)) w (form, st) in
      fst (final r) = form
      /\ (exists ok, remote_calls (trace r) = [Remote (DeleteDoc "products" ref) ok])
      /\ (deleteDoc_settles w "products" ref = Fulfilled tt ->
          products (snd (final r)) = without_id (p_id p) (products st))
      /\ (forall e, deleteDoc_settles w "products" ref = Rejected e ->
          snd (final r) = st)).
Proof.
  split; [intro onDeleteProduct; reflexivity|].
  intro r. subst r.
  unfold run, ProductManager.handleDeleteProduct, call_prop.
  cbn [outcome final trace fst snd].
  assert (Hres : resolved_ref (products st) (p_id p) (p_docId p) = Some ref).
  { unfold resolved_ref, if_truthy. rewrite Hdoc.
    destruct ref; [exfalso; apply Href; reflexivity | reflexivity]. }
  pose proof (delete_run_resolved w st (p_id p) (p_docId p) ref Hres) as Hrun.
  unfold run in Hrun. rewrite Hrun.
  destruct (deleteDoc_settles w "products" ref) as [[]|e];
    cbn [final trace products remote_calls filter is_remote].
  - split; [reflexivity|]. split; [exists true; reflexivity|].
    split; [intros _; reflexivity | intros e He; discriminate He].
  - split; [reflexivity|]. split; [exists false; reflexivity|].
    split; [intro He; discriminate He | intros e' _; reflexivity].
Qed.

Lemma product_row_delete_witness :
  remote_calls
    (trace (run (ProductManager.handleDeleteProduct handleDeleteProduct true 5
                   (Some "doc-b"))
                online (initialProductManager, logged_in "op-1" twin_products)))
  = [Remote (DeleteDoc "products" "doc-b") true].
Proof.
  destruct (product_row_delete online initialProductManager
              (logged_in "op-1" twin_products)
              (mkProduct 5 "Sunflower Oil 1L" 145%float (Some "doc-b")) "doc-b"
              eq_refl ltac:(discriminate))
    as (_ & _ & (ok & Hcalls) & _).
  cbn [p_id p_docId] in Hcalls. rewrite Hcalls.
  vm_compute in Hcalls. injection Hcalls as <-. reflexivity.
Defined.



(* ------------------------------------------------------------------ *)
(** ** More on fetching the history *)

Lemma fetch_run_fulfilled (w : World) (st : HistoryState) (operator : User)
    (docs : list (QueryDocumentSnapshot InvoiceData)) :
  getDocs_invoices w (invoices_query operator) = Fulfilled docs ->
  all_stamped docs = true ->
  exists invs,
    Forall2 is_invoice_of docs invs
    /\ run (fetchInvoices operator) w st
       = mkResult (Normal tt)
           (mkHistoryState invs false (error st) (searchTerm st))
           [Remote (GetDocs (invoices_query operator)) true].
Proof.
  intros Hq Hall.
  destruct (map_docs_stamped docs w st Hall) as (invs & Hrun & Hrel).
  exists invs. split; [exact Hrel|].
  unfold run, fetchInvoices.
  set (q := invoices_query operator) in *.
  set (body := bind (getDocs_i q) _).
  assert (Hget : getDocs_i q w st
                 = mkResult (Normal docs) st [Remote (GetDocs q) true]).
  { unfold getDocs_i, await. rewrite Hq. reflexivity. }
  assert (Hbody : body w st
                  = mkResult (Normal tt)
                      (mkHistoryState invs (h_loading st) (error st) (searchTerm st))
                      [Remote (GetDocs q) true]).
  { subst body. rewrite (bind_normal _ _ w st st docs _ Hget).
    rewrite (bind_normal _ _ w st st invs [] Hrun). reflexivity. }
  unfold try_finally, try_catch. rewrite Hbody. reflexivity.
Qed.

Lemma fetch_run_rejected (w : World) (st : HistoryState) (operator : User) (e : string) :
  getDocs_invoices w (invoices_query operator) = Rejected e ->
  run (fetchInvoices operator) w st
  = mkResult (Normal tt)
      (mkHistoryState (invoices st) false (Some "Failed to fetch invoice history.")
         (searchTerm st))
      [Remote (GetDocs (invoices_query operator)) false; ConsoleError e].
Proof.
  intro Hq. unfold run, fetchInvoices.
  set (q := invoices_query operator) in *.
  set (body := bind (getDocs_i q) _).
  assert (Hbody : body w st = mkResult (Thrown e) st [Remote (GetDocs q) false]).
  { subst body. apply bind_thrown. unfold getDocs_i, await. rewrite Hq. reflexivity. }
  unfold try_finally, try_catch. rewrite Hbody. reflexivity.
Qed.

(** X19. [fetchInvoices] never clears the error: once a fetch has failed,
    a later fetch that succeeds stores the invoices it received, but the
    component still renders the error message and none of them. *)
Theorem fetch_never_clears_error
    (toLocaleDateString : Date -> string)
    (w w' : World) (st : HistoryState) (operator operator' : User)
    (e : string) (docs : list (QueryDocumentSnapshot InvoiceData))
    (Hfail : getDocs_invoices w (invoices_query operator) = Rejected e)
    (Hok : getDocs_invoices w' (invoices_query operator') = Fulfilled docs)
    (Hall : all_stamped docs = true) :
  let failed := final (run (fetchInvoices operator) w st) in
  let r := run (fetchInvoices operator') w' failed in
  Forall2 is_invoice_of docs (invoices (final r))
  /\ error (final r) = Some "Failed to fetch invoice history."
  /\ render toLocaleDateString (final r) = ErrorBox "Failed to fetch invoice history.".
Proof.
  intros failed r. subst r failed.
  rewrite (fetch_run_rejected w st operator e Hfail). cbn [final].
  destruct (fetch_run_fulfilled w'
              (mkHistoryState (invoices st) false
                 (Some "Failed to fetch invoice history.") (searchTerm st))
              operator' docs Hok Hall) as (invs & Hrel & Hrun).
  rewrite Hrun. cbn [final invoices error].
  split; [exact Hrel|]. split; reflexivity.
Qed.

Lemma fetch_never_clears_error_witness :
  render toLocaleDateString_enIN_UTC
    (final (run (fetchInvoices (mkUser "op-1")) with_history
                (final (run (fetchInvoices (mkUser "op-1")) offline initialHistory))))
  = ErrorBox "Failed to fetch invoice history.".
Proof.
  exact (proj2 (proj2 (fetch_never_clears_error toLocaleDateString_enIN_UTC
                         offline with_history initialHistory
                         (mkUser "op-1") (mkUser "op-1")
                         "unavailable" stored_invoices eq_refl eq_refl eq_refl))).
Defined.

Lemma toDate_monotone (a b : Timestamp) :
  valid_stamp a -> valid_stamp b -> stamp_le a b -> toDate a <= toDate b.
Proof.
  unfold valid_stamp, stamp_le, toDate. intros Ha Hb Hle.
  assert (Hqa : 0 <= nanoseconds a / 1000000 < 1000).
  { split; [apply Z.div_pos; lia | apply Z.div_lt_upper_bound; lia]. }
  assert (Hqb : 0 <= nanoseconds b / 1000000 < 1000).
  { split; [apply Z.div_pos; lia | apply Z.div_lt_upper_bound; lia]. }
  destruct Hle as [Hlt | [Heq Hn]].
  - lia.
  - rewrite Heq.
    assert (nanoseconds a / 1000000 <= nanoseconds b / 1000000)
      by (apply Z.div_le_mono; lia).
    lia.
Qed.

Lemma dates_follow_stamps
    (d1 d2 : QueryDocumentSnapshot InvoiceData) (i1 i2 : InvoiceData) :
  is_invoice_of d1 i1 -> is_invoice_of d2 i2 ->
  created_no_earlier d1 d2 -> date i2 <= date i1.
Proof.
  intros (t1 & Hc1 & Hd1 & _) (t2 & Hc2 & Hd2 & _) (s1 & s2 & Hs1 & Hs2 & Hv1 & Hv2 & Hle).
  rewrite Hc1 in Hs1. rewrite Hc2 in Hs2.
  injection Hs1 as <-. injection Hs2 as <-.
  rewrite Hd1, Hd2. apply toDate_monotone; assumption.
Qed.

Lemma Forall2_in_right {A B} (R : A -> B -> Prop) (l : list A) (l' : list B) (b : B) :
  Forall2 R l l' -> In b l' -> exists a, In a l /\ R a b.
Proof.
  intro Hrel. induction Hrel as [|a a' l l' Ha Hrel IH]; intro Hin.
  - destruct Hin.
  - destruct Hin as [<- | Hin].
    + exists a. split; [left; reflexivity | exact Ha].
    + destruct (IH Hin) as (x & Hx & Hxb).
      exists x. split; [right; exact Hx | exact Hxb].
Qed.

Lemma sorted_through_Forall2 {A B} (R : A -> B -> Prop)
    (P : A -> A -> Prop) (Q : B -> B -> Prop) (l : list A) (l' : list B) :
  (forall a b a' b', R a a' -> R b b' -> P a b -> Q a' b') ->
  Forall2 R l l' -> StronglySorted P l -> StronglySorted Q l'.
Proof.
  intros Hstep Hrel. induction Hrel as [|a a' l l' Ha Hrel IH]; intro Hs.
  - constructor.
  - apply StronglySorted_inv in Hs as [Hs Hall].
    constructor; [exact (IH Hs)|].
    rewrite Forall_forall in *. intros b' Hb'.
    destruct (Forall2_in_right R l l' b' Hrel Hb') as (b & Hb & Hbb').
    exact (Hstep a b a' b' Ha Hbb' (Hall b Hb)).
Qed.

(** X20. The history lists the invoices in the order of the answer, so
    newest first when the server honours the requested order: if every
    document of a fulfilled answer was created no earlier than the
    documents after it, the dates of the invoices stored never increase
    down the list. *)
Theorem history_is_newest_first
    (w : World) (st : HistoryState) (operator : User)
    (docs : list (QueryDocumentSnapshot InvoiceData))
    (Hq : getDocs_invoices w (invoices_query operator) = Fulfilled docs)
    (Hsorted : StronglySorted created_no_earlier docs)
    (Hall : all_stamped docs = true) :
  let r := run (fetchInvoices operator) w st in
  List.length (invoices (final r)) = List.length docs
  /\ StronglySorted (fun earlier later => date later <= date earlier)
       (invoices (final r)).
Proof.
  intro r. subst r.
  destruct (fetch_run_fulfilled w st operator docs Hq Hall) as (invs & Hrel & Hrun).
  rewrite Hrun. cbn [final invoices]. split.
  - symmetry. exact (Forall2_length Hrel).
  - apply (sorted_through_Forall2 is_invoice_of created_no_earlier _ docs invs);
      [|exact Hrel | exact Hsorted].
    intros d1 d2 i1 i2 H1 H2 Hd. exact (dates_follow_stamps d1 d2 i1 i2 H1 H2 Hd).
Qed.

Lemma stored_invoices_newest_first : StronglySorted created_no_earlier stored_invoices.
Proof.
  unfold stored_invoices.
  constructor; [constructor; [constructor | constructor] |].
  constructor; [|constructor].
  exists (mkTimestamp 1700000000 0), (mkTimestamp 1692023000 0).
  unfold valid_stamp, stamp_le. cbn. repeat split; lia.
Qed.

Lemma history_is_newest_first_witness :
  StronglySorted (fun earlier later => date later <= date earlier)
    (invoices (final (run (fetchInvoices (mkUser "op-1")) with_history initialHistory))).
Proof.
  exact (proj2 (history_is_newest_first with_history initialHistory (mkUser "op-1")
                  stored_invoices eq_refl stored_invoices_newest_first eq_refl)).
Defined.

(* ------------------------------------------------------------------ *)
(** ** How the handlers compose *)

Lemma save_invoice_run (w : World) (st : AppState) (u : User) (invoiceData : InvoiceData) :
  user st = Some u ->
  run (handleSaveInvoice invoiceData) w st
  = match addDoc_settles w "invoices" (InvoiceFields invoiceData) with
    | Fulfilled docRef =>
        mkResult (Normal (Some true))
          (mkAppState (user st) (loading st) (view st)
             (Some (with_id invoiceData docRef)) (products st))
          [Remote (AddDoc "invoices" (InvoiceFields invoiceData)) true]
    | Rejected _ =>
        mkResult (Normal (Some false)) st
          [Remote (AddDoc "invoices" (InvoiceFields invoiceData)) false;
           ConsoleError "Error adding document: ";
           Alert "Failed to save the invoice. Please try again."]
    end.
Proof.
  intro Hu. destruct st as [us ld vw ci ps]. cbn in Hu. subst us.
  unfold run, handleSaveInvoice, bind, read, try_catch, addDoc, await.
  cbn. destruct (addDoc_settles w "invoices" (InvoiceFields invoiceData)); reflexivity.
Qed.

Lemma generate_bill_unauthorized_run
    (GST_RATE : float) (w : World) (st : AppState)
    (cName cPhone : string) (billItems : list BillItem) :
  user st = None ->
  run (handleGenerateBill GST_RATE cName cPhone billItems) w st
  = mkResult (Normal tt) st [Alert "You must be logged in to generate a bill."].
Proof.
  intro Hu. unfold run, handleGenerateBill, bind, read, alert, emit.
  cbn. rewrite Hu. reflexivity.
Qed.

(** X21. The catalog handlers and the invoice handlers keep to their own
    part of the state: adding, deleting or loading products never
    touches the current invoice, so an open draft survives them;
    generating or saving a bill never touches the catalog; and none of
    them changes the user or the view. *)
Theorem handlers_keep_to_their_state
    (PRODUCTS : list Product) (GST_RATE : float) (w : World) (st : AppState) :
  (forall name price,
      same_but_catalog (final (run (handleAddProduct name price) w st)) st)
  /\ (forall id docId,
        same_but_catalog (final (run (handleDeleteProduct id docId) w st)) st)
  /\ same_but_catalog (final (run (loadProducts PRODUCTS) w st)) st
  /\ (forall name phone billItems,
        same_but_invoice
          (final (run (handleGenerateBill GST_RATE name phone billItems) w st)) st)
  /\ (forall invoiceData,
        same_but_invoice (final (run (handleSaveInvoice invoiceData) w st)) st).
Proof.
  unfold same_but_catalog, same_but_invoice.
  split; [|split; [|split; [|split]]].
  - intros name price. rewrite add_product_run.
    destruct (addDoc_settles w "products" _); repeat split.
  - intros id docId.
    destruct (resolved_ref (products st) id docId) as [ref|] eqn:Hres.
    + rewrite (delete_run_resolved w st id docId ref Hres).
      destruct (deleteDoc_settles w "products" ref); repeat split.
    + rewrite (delete_run_unresolved w st id docId Hres). repeat split.
  - unfold run, loadProducts, bind, try_catch, getDocs_p, await.
    cbn. destruct (getDocs_products w (products_query)) as [[|d docs]|e]; repeat split.
  - intros name phone billItems.
    destruct (user st) as [u|] eqn:Hu.
    + destruct (generate_bill_run GST_RATE w st u name phone billItems Hu)
        as (inv & Hrun & _).
      rewrite Hrun. cbn. rewrite Hu. repeat split.
    + rewrite (generate_bill_unauthorized_run GST_RATE w st name phone billItems Hu).
      cbn [final]. rewrite Hu. repeat split.
  - intro invoiceData.
    destruct (user st) as [u|] eqn:Hu.
    + rewrite (save_invoice_run w st u invoiceData Hu).
      destruct (addDoc_settles w "invoices" _); cbn; rewrite ?Hu; repeat split.
    + rewrite (save_invoice_unauthorized_run w st invoiceData Hu).
      cbn [final]. rewrite Hu. repeat split.
Qed.

(** X22. After the component mounts and its fetch is fulfilled with stamped
    documents, it shows the table with one row per document, in the
    order of the answer, unfiltered. *)
Theorem history_mount_shows_all
    (toLocaleDateString : Date -> string) (w : World) (operator : User)
    (docs : list (QueryDocumentSnapshot InvoiceData))
    (Hq : getDocs_invoices w (invoices_query operator) = Fulfilled docs)
    (Hall : all_stamped docs = true) :
  render toLocaleDateString initialHistory = LoadingHistory
  /\ exists rows,
       render toLocaleDateString (final (run (fetchInvoices operator) w initialHistory))
       = HistoryTable EmptyString rows
       /\ Forall2 is_invoice_of docs rows.
Proof.
  split; [reflexivity|].
  destruct (fetch_run_fulfilled w initialHistory operator docs Hq Hall)
    as (invs & Hrel & Hrun).
  exists invs. split; [|exact Hrel].
  rewrite Hrun. unfold render. cbn [final h_loading error initialHistory if_truthy truthy
                                       searchTerm invoices].
  rewrite history_empty_term_rows. reflexivity.
Qed.

Lemma history_mount_shows_all_witness :
  exists rows,
    render toLocaleDateString_enIN_UTC
      (final (run (fetchInvoices (mkUser "op-1")) with_history initialHistory))
    = HistoryTable EmptyString rows
    /\ Forall2 is_invoice_of stored_invoices rows.
Proof.
  exact (proj2 (history_mount_shows_all toLocaleDateString_enIN_UTC with_history
                  (mkUser "op-1") stored_invoices eq_refl eq_refl)).
Defined.

(** X23. Products that came from Firestore are deleted there too: after a
    non-empty load whose documents have non-empty ids, a delete of any
    code of the catalog, even without a [docId] argument, issues a remote
    delete of a loaded document with that code before anything is
    removed. *)
Theorem loaded_products_delete_remotely
    (PRODUCTS : list Product) (w w' : World) (st : AppState)
    (docs : list (QueryDocumentSnapshot ProductData)) (p : Product)
    (Hq : getDocs_products w (products_query) = Fulfilled docs)
    (Hids : forall d, In d docs -> doc_id d <> EmptyString)
    (Hp : In p (products (final (run (loadProducts PRODUCTS) w st))))
    (Hne : docs <> []) :
  exists d ok,
    In d docs /\ d_id (doc_data d) = p_id p
    /\ trace (run (handleDeleteProduct (p_id p) None) w'
                  (final (run (loadProducts PRODUCTS) w st)))
       = Remote (DeleteDoc "products" (doc_id d)) ok
         :: (if ok then []
             else [ConsoleError "Failed to delete product from Firestore";
                   Alert "Failed to delete product from database."]).
Proof.
  assert (Hload : products (final (run (loadProducts PRODUCTS) w st))
                  = map product_of_doc docs).
  { unfold run, loadProducts, bind, try_catch, getDocs_p, await.
    cbn. rewrite Hq. destruct docs as [|d docs]; [exfalso; apply Hne; reflexivity|].
    reflexivity. }
  set (loaded := final (run (loadProducts PRODUCTS) w st)) in *.
  set (pred := fun q : Product => ((p_id q =? p_id p) && truthy (p_docId q))%bool).
  assert (Htruthy : forall d, In d docs -> truthy (p_docId (product_of_doc d)) = true).
  { intros d Hd. cbn. specialize (Hids d Hd).
    destruct (doc_id d); [exfalso; apply Hids; reflexivity | reflexivity]. }
  assert (Hfound : exists q, find_product pred (products loaded) = Some q).
  { destruct (find_product pred (products loaded)) as [q|] eqn:Hf; [exists q; reflexivity|].
    exfalso. unfold find_product in Hf.
    pose proof (find_none _ _ Hf p Hp) as Hnone. unfold pred in Hnone.
    rewrite Z.eqb_refl in Hnone. cbn [andb] in Hnone.
    rewrite Hload in Hp. apply in_map_iff in Hp as (d & <- & Hd).
    rewrite (Htruthy d Hd) in Hnone. discriminate Hnone. }
  destruct Hfound as (q & Hf).
  pose proof Hf as Hf'. unfold find_product in Hf'.
  apply find_some in Hf' as [Hqin Hq'].
  unfold pred in Hq'. apply andb_true_iff in Hq' as [Hqid Hqdoc].
  apply Z.eqb_eq in Hqid.
  rewrite Hload in Hqin. apply in_map_iff in Hqin as (d & Hdq & Hd).
  assert (Hres : resolved_ref (products loaded) (p_id p) None = Some (doc_id d)).
  { unfold resolved_ref. cbn [if_truthy truthy].
    fold pred. rewrite Hf. cbn [opt_chain]. unfold if_truthy. rewrite Hqdoc.
    rewrite <- Hdq. reflexivity. }
  rewrite (delete_run_resolved w' loaded (p_id p) None (doc_id d) Hres).
  destruct (deleteDoc_settles w' "products" (doc_id d)) as [[]|e].
  - exists d, true. split; [exact Hd|]. split; [|reflexivity].
    rewrite <- Hqid, <- Hdq. reflexivity.
  - exists d, false. split; [exact Hd|]. split; [|reflexivity].
    rewrite <- Hqid, <- Hdq. reflexivity.
Qed.

Lemma loaded_products_delete_remotely_witness :
  exists d ok,
    In d stored_products /\ d_id (doc_data d) = 2
    /\ trace (run (handleDeleteProduct 2 None) online
                  (final (run (loadProducts three_products) stocked
                              (initialState three_products))))
       = Remote (DeleteDoc "products" (doc_id d)) ok
         :: (if ok then []
             else [ConsoleError "Failed to delete product from Firestore";
                   Alert "Failed to delete product from database."]).
Proof.
  apply (loaded_products_delete_remotely three_products stocked online
           (initialState three_products) stored_products
           (mkProduct 2 "Sesame Oil 500ml" 180%float (Some "d2")) eq_refl).
  - intros d [<- | [<- | []]]; discriminate.
  - right. left. reflexivity.
  - discriminate.
Defined.
